(** * Auckland Transport MCP adapter: a shallow embedding and its properties

    The development follows the three source files:
    - [gtfs_types.py]: the pydantic models, here one module for each class,
      with its record, its [model_validate] and its [model_dump];
    - [at_service.py]: the transit client, here functions in a small
      state-and-exception monad over a world that holds the wall clock, the
      upstream server and the log of network calls (module [ATService]);
    - [app.py]: the two tool bindings (module [App]).

    Python [str] values are modelled as [string], read as sequences of code
    points below 256 (Latin-1), on which [str.lower] and [str.strip] are
    character-wise and are written out in full.  Python [float] is the
    kernel's binary64 [float]. *)

From Stdlib Require Import String Ascii List ZArith Bool Lia Floats.
Import ListNotations.

Open Scope string_scope.

(** ** Python strings *)

Module PyStr.

(** [str.isspace] on one code point below 256: TAB..CR, FS..US, SPACE,
    NEL (0x85) and NBSP (0xA0). *)
Definition is_space (c : ascii) : bool :=
  let n := nat_of_ascii c in
  (((9 <=? n) && (n <=? 13)) || ((28 <=? n) && (n <=? 32))
   || (n =? 133) || (n =? 160))%nat.

(** [str.lower] on one code point below 256: A..Z and the accented capitals
    0xC0..0xDE (the multiplication sign 0xD7 apart) move up by 32. *)
Definition lower_char (c : ascii) : ascii :=
  let n := nat_of_ascii c in
  if (((65 <=? n) && (n <=? 90))
      || ((192 <=? n) && (n <=? 222) && negb (n =? 215)))%nat
  then ascii_of_nat (n + 32) else c.

Fixpoint lower (s : string) : string :=
  match s with
  | EmptyString => EmptyString
  | String c r => String (lower_char c) (lower r)
  end.

Fixpoint lstrip (s : string) : string :=
  match s with
  | EmptyString => EmptyString
  | String c r => if is_space c then lstrip r else s
  end.

Fixpoint rstrip (s : string) : string :=
  match s with
  | EmptyString => EmptyString
  | String c r =>
      match rstrip r with
      | EmptyString => if is_space c then EmptyString else String c EmptyString
      | r' => String c r'
      end
  end.

(** [s.strip()] with no argument. *)
Definition strip (s : string) : string := rstrip (lstrip s).

(** [needle in hay] for two strings. *)
Fixpoint contains (needle hay : string) : bool :=
  prefix needle hay
  || match hay with
     | EmptyString => false
     | String _ r => contains needle r
     end.

(** Every character of [s] is whitespace. *)
Fixpoint all_space (s : string) : bool :=
  match s with
  | EmptyString => true
  | String c r => is_space c && all_space r
  end.

(** An ASCII decimal digit: the only decimal digits below 256. *)
Definition is_digit (c : ascii) : bool :=
  let n := nat_of_ascii c in ((48 <=? n) && (n <=? 57))%nat.

Fixpoint has_digit (s : string) : bool :=
  match s with
  | EmptyString => false
  | String c r => is_digit c || has_digit r
  end.

(** The string spells, in any letter case, inf (hence infinity) or nan
    somewhere. *)
Definition names_inf_or_nan (s : string) : bool :=
  contains "inf" (lower s) || contains "nan" (lower s).

(** [str(x)] inside an f-string for an optional string ([None] prints as
    the word None). *)
Definition format_value (x : option string) : string :=
  match x with
  | Some s => s
  | None => "None"
  end.

End PyStr.

(** ** Python exceptions and results *)

Inductive exn : Type :=
| RequestError      (* requests: the transport failed *)
| JSONDecodeError   (* response.json(): the body is not JSON *)
| ValidationError   (* pydantic: the value does not fit the model *)
| TypeError         (* a keyword argument that names a bound parameter *)
| KeyError          (* a missing dict key or format keyword *)
| IndexError        (* a positional format field with no argument *)
| ValueError.       (* a malformed format string *)

Inductive result (A : Type) : Type :=
| Ok (a : A)
| Raise (e : exn).

Arguments Ok {A} a.
Arguments Raise {A} e.

Definition rbind {A B} (r : result A) (k : A -> result B) : result B :=
  match r with
  | Ok a => k a
  | Raise e => Raise e
  end.

Declare Scope result_scope.
Delimit Scope result_scope with result.
Notation "x <- c ;; k" := (rbind c (fun x => k))
  (at level 61, c at next level, right associativity) : result_scope.

Fixpoint map_result {A B} (f : A -> result B) (l : list A) : result (list B) :=
  match l with
  | [] => Ok []
  | a :: r =>
      (b <- f a ;; bs <- map_result f r ;; Ok (b :: bs))%result
  end.

(** ** Python values as [response.json()] builds them *)

#[warnings="-register-all"]
Inductive pyval : Type :=
| PNone
| PBool (b : bool)
| PInt (z : Z)
| PFloat (f : float)
| PStr (s : string)
| PList (l : list pyval)
| PDict (d : list (string * pyval)).

(** A dict is kept as its items; [d.get(k)] is the first binding of [k]. *)
Definition dict : Type := list (string * pyval).

Fixpoint dict_get (k : string) (d : dict) : option pyval :=
  match d with
  | [] => None
  | (k', v) :: r => if String.eqb k k' then Some v else dict_get k r
  end.

(** ** Numbers *)

Module PyNum.

(** [float(z)]: the nearest binary64, or nothing on overflow (Python raises
    OverflowError). *)
Definition float_of_int (z : Z) : option float :=
  let f := SF2Prim (binary_normalize prec emax z 0 false) in
  if is_infinity f then None else Some f.

(** The integer a finite float with no fractional part stands for. *)
Definition float_whole (f : float) : option Z :=
  match Prim2SF f with
  | S754_zero _ => Some 0%Z
  | S754_finite s m e =>
      let signed (z : Z) := if s then (- z)%Z else z in
      if (0 <=? e)%Z then Some (signed (Z.pos m * 2 ^ e)%Z)
      else if (Z.pos m mod 2 ^ (- e) =? 0)%Z
           then Some (signed (Z.pos m / 2 ^ (- e))%Z)
           else None
  | _ => None
  end.

(** A float read as an int: it must be whole and lie strictly between
    -2^63 and 2^63. *)
Definition float_as_int (f : float) : option Z :=
  match float_whole f with
  | Some z => if ((- 2 ^ 63 <? z) && (z <? 2 ^ 63))%Z then Some z else None
  | None => None
  end.

Definition float_of_bool (b : bool) : float :=
  if b then 1%float else 0%float.

Definition int_of_bool (b : bool) : Z := if b then 1%Z else 0%Z.

End PyNum.

(** ** gtfs_types.py: the pydantic models

    No model sets a configuration, so [model_validate] runs pydantic's
    default (lax) mode on the parsed JSON: a [str] field takes a string only;
    an [int] field takes an int, a bool, a whole float within 64 bits, or a
    string that reads as an int; a [float] field takes a float, an int that
    fits, a bool, or a string that reads as a float.  Keys the model does not
    declare are ignored.  How pydantic reads a number out of a string is left
    open but for what every such reader obeys: a string read as an int holds
    a decimal digit, and a string read as a float holds a decimal digit or
    spells inf, infinity or nan.  Every statement below holds for any two
    readers that obey this. *)

Class LaxStrings : Type := {
  str_as_int : string -> option Z;
  str_as_float : string -> option float;
  str_as_int_digit :
    forall s z, str_as_int s = Some z -> PyStr.has_digit s = true;
  str_as_float_numeric :
    forall s f, str_as_float s = Some f ->
                PyStr.has_digit s || PyStr.names_inf_or_nan s = true
}.

Module Pydantic.

Definition of_option {A} (o : option A) : result A :=
  match o with
  | Some a => Ok a
  | None => Raise ValidationError
  end.

Definition validate_str (v : pyval) : result string :=
  match v with
  | PStr s => Ok s
  | _ => Raise ValidationError
  end.

Definition validate_int `{LaxStrings} (v : pyval) : result Z :=
  match v with
  | PInt z => Ok z
  | PBool b => Ok (PyNum.int_of_bool b)
  | PFloat f => of_option (PyNum.float_as_int f)
  | PStr s => of_option (str_as_int s)
  | _ => Raise ValidationError
  end.

Definition validate_float `{LaxStrings} (v : pyval) : result float :=
  match v with
  | PFloat f => Ok f
  | PInt z => of_option (PyNum.float_of_int z)
  | PBool b => Ok (PyNum.float_of_bool b)
  | PStr s => of_option (str_as_float s)
  | _ => Raise ValidationError
  end.

(** A required field: the key must be there and its value must validate. *)
Definition field {A} (d : dict) (name : string)
    (validate : pyval -> result A) : result A :=
  match dict_get name d with
  | Some v => validate v
  | None => Raise ValidationError
  end.

(** A [List[T]] field: a list whose every item validates, in order. *)
Definition validate_list {A} (validate : pyval -> result A) (v : pyval)
    : result (list A) :=
  match v with
  | PList l => map_result validate l
  | _ => Raise ValidationError
  end.

End Pydantic.

Module StopAttributes.

Record t : Type := mk {
  location_type : Z;
  stop_code : string;
  stop_id : string;
  stop_lat : float;
  stop_lon : float;
  stop_name : string;
  wheelchair_boarding : Z
}.

Definition model_validate `{LaxStrings} (v : pyval) : result t :=
  match v with
  | PDict d =>
      (a <- Pydantic.field d "location_type" Pydantic.validate_int ;;
       b <- Pydantic.field d "stop_code" Pydantic.validate_str ;;
       c <- Pydantic.field d "stop_id" Pydantic.validate_str ;;
       e <- Pydantic.field d "stop_lat" Pydantic.validate_float ;;
       f <- Pydantic.field d "stop_lon" Pydantic.validate_float ;;
       g <- Pydantic.field d "stop_name" Pydantic.validate_str ;;
       h <- Pydantic.field d "wheelchair_boarding" Pydantic.validate_int ;;
       Ok (mk a b c e f g h))%result
  | _ => Raise ValidationError
  end.

Definition model_dump (a : t) : dict :=
  [ ("location_type", PInt (location_type a));
    ("stop_code", PStr (stop_code a));
    ("stop_id", PStr (stop_id a));
    ("stop_lat", PFloat (stop_lat a));
    ("stop_lon", PFloat (stop_lon a));
    ("stop_name", PStr (stop_name a));
    ("wheelchair_boarding", PInt (wheelchair_boarding a)) ].

End StopAttributes.

Module Stop.

Record t : Type := mk {
  type : string;
  id : string;
  attributes : StopAttributes.t
}.

Definition model_validate `{LaxStrings} (v : pyval) : result t :=
  match v with
  | PDict d =>
      (a <- Pydantic.field d "type" Pydantic.validate_str ;;
       b <- Pydantic.field d "id" Pydantic.validate_str ;;
       c <- Pydantic.field d "attributes" StopAttributes.model_validate ;;
       Ok (mk a b c))%result
  | _ => Raise ValidationError
  end.

Definition model_dump (s : t) : dict :=
  [ ("type", PStr (type s));
    ("id", PStr (id s));
    ("attributes", PDict (StopAttributes.model_dump (attributes s))) ].

End Stop.

Module StopResponse.

Record t : Type := mk { data : list Stop.t }.

Definition model_validate `{LaxStrings} (v : pyval) : result t :=
  match v with
  | PDict d =>
      (l <- Pydantic.field d "data"
              (Pydantic.validate_list Stop.model_validate) ;;
       Ok (mk l))%result
  | _ => Raise ValidationError
  end.

Definition model_dump (r : t) : dict :=
  [ ("data", PList (map (fun s => PDict (Stop.model_dump s)) (data r))) ].

End StopResponse.

Module StopTripAttributes.

Record t : Type := mk {
  arrival_time : string;
  departure_time : string;
  direction_id : Z;
  drop_off_type : Z;
  pickup_type : Z;
  route_id : string;
  service_date : string;
  shape_id : string;
  stop_headsign : string;
  stop_id : string;
  stop_sequence : Z;
  trip_headsign : string
}.

Definition model_validate `{LaxStrings} (v : pyval) : result t :=
  match v with
  | PDict d =>
      (a <- Pydantic.field d "arrival_time" Pydantic.validate_str ;;
       b <- Pydantic.field d "departure_time" Pydantic.validate_str ;;
       c <- Pydantic.field d "direction_id" Pydantic.validate_int ;;
       e <- Pydantic.field d "drop_off_type" Pydantic.validate_int ;;
       f <- Pydantic.field d "pickup_type" Pydantic.validate_int ;;
       g <- Pydantic.field d "route_id" Pydantic.validate_str ;;
       h <- Pydantic.field d "service_date" Pydantic.validate_str ;;
       i <- Pydantic.field d "shape_id" Pydantic.validate_str ;;
       j <- Pydantic.field d "stop_headsign" Pydantic.validate_str ;;
       k <- Pydantic.field d "stop_id" Pydantic.validate_str ;;
       l <- Pydantic.field d "stop_sequence" Pydantic.validate_int ;;
       m <- Pydantic.field d "trip_headsign" Pydantic.validate_str ;;
       Ok (mk a b c e f g h i j k l m))%result
  | _ => Raise ValidationError
  end.

Definition model_dump (a : t) : dict :=
  [ ("arrival_time", PStr (arrival_time a));
    ("departure_time", PStr (departure_time a));
    ("direction_id", PInt (direction_id a));
    ("drop_off_type", PInt (drop_off_type a));
    ("pickup_type", PInt (pickup_type a));
    ("route_id", PStr (route_id a));
    ("service_date", PStr (service_date a));
    ("shape_id", PStr (shape_id a));
    ("stop_headsign", PStr (stop_headsign a));
    ("stop_id", PStr (stop_id a));
    ("stop_sequence", PInt (stop_sequence a));
    ("trip_headsign", PStr (trip_headsign a)) ].

End StopTripAttributes.

Module StopTrip.

Record t : Type := mk {
  type : string;
  id : string;
  attributes : StopTripAttributes.t
}.

Definition model_validate `{LaxStrings} (v : pyval) : result t :=
  match v with
  | PDict d =>
      (a <- Pydantic.field d "type" Pydantic.validate_str ;;
       b <- Pydantic.field d "id" Pydantic.validate_str ;;
       c <- Pydantic.field d "attributes" StopTripAttributes.model_validate ;;
       Ok (mk a b c))%result
  | _ => Raise ValidationError
  end.

Definition model_dump (s : t) : dict :=
  [ ("type", PStr (type s));
    ("id", PStr (id s));
    ("attributes", PDict (StopTripAttributes.model_dump (attributes s))) ].

End StopTrip.

Module StopTripResponse.

Record t : Type := mk { data : list StopTrip.t }.

Definition model_validate `{LaxStrings} (v : pyval) : result t :=
  match v with
  | PDict d =>
      (l <- Pydantic.field d "data"
              (Pydantic.validate_list StopTrip.model_validate) ;;
       Ok (mk l))%result
  | _ => Raise ValidationError
  end.

Definition model_dump (r : t) : dict :=
  [ ("data", PList (map (fun s => PDict (StopTrip.model_dump s)) (data r))) ].

End StopTripResponse.


(** ** The world the client runs in *)

(** The fields of [datetime.now()] that the client prints. *)
Record datetime : Type := {
  year : nat;
  month : nat;
  day : nat;
  hour : nat
}.

Module PyTime.

Definition digit (n : nat) : ascii := ascii_of_nat (48 + n mod 10).

Definition pad2 (n : nat) : string :=
  String (digit (n / 10)) (String (digit n) EmptyString).

(** The year as %Y prints it from the year 1000 on, which is where
    [datetime.now()] lies; below 1000 the C library decides whether zeros are
    put in front, and no statement is made there. *)
Definition pad4 (n : nat) : string :=
  String (digit (n / 1000)) (String (digit (n / 100)) (pad2 n)).

Definition directive (dt : datetime) (c : ascii) : string :=
  if Ascii.eqb c "Y" then pad4 (year dt)
  else if Ascii.eqb c "m" then pad2 (month dt)
  else if Ascii.eqb c "d" then pad2 (day dt)
  else if Ascii.eqb c "H" then pad2 (hour dt)
  else if Ascii.eqb c "%" then "%"
  else String "%" (String c EmptyString).

(** [dt.strftime(fmt)] for the directives %Y, %m, %d, %H and %%. *)
Fixpoint strftime (dt : datetime) (fmt : string) : string :=
  match fmt with
  | EmptyString => EmptyString
  | String c EmptyString => fmt
  | String c (String c' r as tail) =>
      if Ascii.eqb c "%" then directive dt c' ++ strftime dt r
      else String c (strftime dt tail)
  end.

End PyTime.

(** One call of [requests.request]; [params] and [data] are always None. *)
Record request : Type := {
  req_method : string;
  req_url : string;
  req_headers : list (string * option string)
}.

(** What the upstream does with a request: the transport fails, or a response
    comes back with a status code and a body that parses as JSON or not. *)
Inductive http_outcome : Type :=
| ConnectionFailed
| Response (status_code : Z) (json : option pyval).

Record world : Type := {
  clock : nat -> datetime;        (* what the n-th read of the clock returns *)
  ticks : nat;                    (* how many times the clock was read *)
  upstream : request -> http_outcome;
  calls : list request            (* the network calls issued so far, in order *)
}.

(** Computations that read the clock, call the upstream and may raise. *)
Definition M (A : Type) : Type := world -> result A * world.

Definition ret {A} (a : A) : M A := fun w => (Ok a, w).

Definition bind {A B} (m : M A) (k : A -> M B) : M B :=
  fun w =>
    match m w with
    | (Ok a, w') => k a w'
    | (Raise e, w') => (Raise e, w')
    end.

Definition lift {A} (r : result A) : M A := fun w => (r, w).

Declare Scope io_scope.
Delimit Scope io_scope with io.
Notation "x <- c ;; k" := (bind c (fun x => k))
  (at level 61, c at next level, right associativity) : io_scope.

(** [datetime.now()]. *)
Definition datetime_now : M datetime :=
  fun w =>
    (Ok (clock w (ticks w)),
     {| clock := clock w; ticks := S (ticks w);
        upstream := upstream w; calls := calls w |}).

(** [requests.request(method, url, headers=...)]. *)
Definition requests_request (r : request) : M (Z * option pyval) :=
  fun w =>
    let w' := {| clock := clock w; ticks := ticks w;
                 upstream := upstream w; calls := calls w ++ [r] |} in
    match upstream w r with
    | ConnectionFailed => (Raise RequestError, w')
    | Response status body => (Ok (status, body), w')
    end.

(** [response.json()]. *)
Definition response_json (resp : Z * option pyval) : result pyval :=
  match snd resp with
  | Some j => Ok j
  | None => Raise JSONDecodeError
  end.

(** ** [str.format] with keyword arguments

    Replacement fields are plain keyword names, as in [URL_MAP]; doubled
    braces stand for one brace. *)

Module PyFormat.

Fixpoint kwargs_get (k : string) (kw : list (string * string)) : result string :=
  match kw with
  | [] => Raise KeyError
  | (k', v) :: r => if String.eqb k k' then Ok v else kwargs_get k r
  end.

Inductive mode : Type :=
| Text                      (* outside a field *)
| Open                      (* just after an opening brace *)
| Close                     (* just after a closing brace in text *)
| Field (name : string).    (* inside a field, with the name read so far *)

Fixpoint run (tpl : string) (m : mode) (kw : list (string * string))
    : result string :=
  match tpl with
  | EmptyString =>
      match m with
      | Text => Ok EmptyString
      | _ => Raise ValueError
      end
  | String c r =>
      match m with
      | Text =>
          if Ascii.eqb c "{" then run r Open kw
          else if Ascii.eqb c "}" then run r Close kw
          else (s <- run r Text kw ;; Ok (String c s))%result
      | Open =>
          if Ascii.eqb c "{"
          then (s <- run r Text kw ;; Ok (String c s))%result
          else if Ascii.eqb c "}" then Raise IndexError
          else run r (Field (String c EmptyString)) kw
      | Close =>
          if Ascii.eqb c "}"
          then (s <- run r Text kw ;; Ok (String c s))%result
          else Raise ValueError
      | Field name =>
          if Ascii.eqb c "}"
          then (v <- kwargs_get name kw ;;
                s <- run r Text kw ;; Ok (v ++ s))%result
          else run r (Field (name ++ String c EmptyString)) kw
      end
  end.

Definition format (tpl : string) (kw : list (string * string)) : result string :=
  run tpl Text kw.

End PyFormat.

(** ** at_service.py: the transit client *)

Module ATService.

Record t : Type := {
  base_url : option string;
  api_key : option string;
  headers : list (string * option string)
}.

Definition URL_MAP : list (string * string) :=
  [ ("search_stop", "/stops?filter[date]={journey_date}");
    ("stop_trips_by_stop_id",
     "/stops/{stop_id}/stoptrips?filter[date]={journey_date}&filter[start_hour]={journey_hour}") ].

(** [__init__]: the configuration is read from the environment. *)
Definition init (getenv : string -> option string) : t :=
  {| base_url := getenv "AT_BASE_URL";
     api_key := getenv "AT_API_KEY";
     headers := [ ("Content-Type", Some "application/json");
                  ("Cache-Control", Some "no-cache");
                  ("Ocp-Apim-Subscription-Key", getenv "AT_API_KEY") ] |}.

Definition _make_request (self : t) (url method : string) : M pyval :=
  (response <- requests_request
                 {| req_method := method; req_url := url;
                    req_headers := headers self |} ;;
   lift (response_json response))%io.

Fixpoint url_map_get (k : string) (m : list (string * string)) : result string :=
  match m with
  | [] => Raise KeyError
  | (k', v) :: r => if String.eqb k k' then Ok v else url_map_get k r
  end.

(** A keyword of the call is named as one of the parameters [self] and
    [url], which the call has bound already. *)
Definition binds_parameter (kwargs : list (string * string)) : bool :=
  existsb (fun kv => String.eqb (fst kv) "self" || String.eqb (fst kv) "url")
    kwargs.

(** [kwargs] holds the keyword arguments of the call, each keyword once.
    Python binds the arguments before the body runs and raises [TypeError]
    for a keyword named self or url. *)
Definition _get_url (self : t) (url : string) (kwargs : list (string * string))
    : result string :=
  if binds_parameter kwargs then Raise TypeError
  else
    (tpl <- url_map_get url URL_MAP ;;
     path <- PyFormat.format tpl kwargs ;;
     Ok (PyStr.format_value (base_url self) ++ path))%result.

Definition _get_date_time : M string :=
  (now <- datetime_now ;; ret (PyTime.strftime now "%Y-%m-%d"))%io.

Definition _get_hour : M string :=
  (now <- datetime_now ;; ret (PyTime.strftime now "%H"))%io.

(** The test of the loop body: [name.lower() in stop.attributes.stop_name.lower()]. *)
Definition name_matches (name : string) (stop : Stop.t) : bool :=
  PyStr.contains (PyStr.lower name)
    (PyStr.lower (StopAttributes.stop_name (Stop.attributes stop))).

(** One turn of the loop: append the stop to [found_stops.data] when it
    matches. *)
Definition visit (name : string) (found_stops : StopResponse.t) (stop : Stop.t)
    : StopResponse.t :=
  if name_matches name stop
  then StopResponse.mk (StopResponse.data found_stops ++ [stop])
  else found_stops.

Definition search_stop `{LaxStrings} (self : t) (name : option string)
    : M StopResponse.t :=
  match name with
  | None => ret (StopResponse.mk [])
  | Some name =>
      if String.eqb name ""
      then ret (StopResponse.mk [])
      else
        let name := PyStr.strip name in
        (journey_date <- _get_date_time ;;
         url <- lift (_get_url self "search_stop"
                        [("journey_date", journey_date)]) ;;
         stops <- _make_request self url "GET" ;;
         stop_response <- lift (StopResponse.model_validate stops) ;;
         ret (fold_left (visit name) (StopResponse.data stop_response)
                (StopResponse.mk [])))%io
  end.

Definition get_stop_trips_by_stop_id `{LaxStrings} (self : t)
    (stop_id : option string) : M StopTripResponse.t :=
  match stop_id with
  | None => ret (StopTripResponse.mk [])
  | Some stop_id =>
      if String.eqb stop_id ""
      then ret (StopTripResponse.mk [])
      else
        let stop_id := PyStr.strip stop_id in
        (journey_date <- _get_date_time ;;
         journey_hour <- _get_hour ;;
         url <- lift (_get_url self "stop_trips_by_stop_id"
                        [ ("stop_id", stop_id);
                          ("journey_date", journey_date);
                          ("journey_hour", journey_hour) ]) ;;
         stop_trips <- _make_request self url "GET" ;;
         stop_trip_response <- lift (StopTripResponse.model_validate stop_trips) ;;
         ret stop_trip_response)%io
  end.

End ATService.

(** ** app.py: the tool bindings *)

Module App.

Definition search_stop `{LaxStrings} (at_service : ATService.t)
    (name : option string) : M StopResponse.t :=
  ATService.search_stop at_service name.

Definition get_stop_trips_by_stop_id `{LaxStrings} (at_service : ATService.t)
    (stop_id : option string) : M StopTripResponse.t :=
  ATService.get_stop_trips_by_stop_id at_service stop_id.

End App.


(** * Vocabulary of the statements *)

(** ** Declared field types *)

Inductive pytype : Type := TInt | TFloat | TStr.

(** The annotations of [StopAttributes] and [StopTripAttributes], in the
    order of declaration. *)
Definition StopAttributes_fields : list (string * pytype) :=
  [ ("location_type", TInt); ("stop_code", TStr); ("stop_id", TStr);
    ("stop_lat", TFloat); ("stop_lon", TFloat); ("stop_name", TStr);
    ("wheelchair_boarding", TInt) ].

Definition StopTripAttributes_fields : list (string * pytype) :=
  [ ("arrival_time", TStr); ("departure_time", TStr); ("direction_id", TInt);
    ("drop_off_type", TInt); ("pickup_type", TInt); ("route_id", TStr);
    ("service_date", TStr); ("shape_id", TStr); ("stop_headsign", TStr);
    ("stop_id", TStr); ("stop_sequence", TInt); ("trip_headsign", TStr) ].

(** [type(v) is ty]: the value has exactly the declared type. *)
Definition has_type (ty : pytype) (v : pyval) : bool :=
  match ty, v with
  | TInt, PInt _ => true
  | TFloat, PFloat _ => true
  | TStr, PStr _ => true
  | _, _ => false
  end.


(** Values that lax mode does not turn into the declared type: null, lists
    and objects everywhere; anything but a string in a [str] field; in an
    [int] field a float that is no whole number strictly between -2^63 and
    2^63, or a string that does not read as an int; in a [float] field an int
    beyond the range of binary64, or a string that does not read as a
    float. *)
Definition uncoercible `{LaxStrings} (ty : pytype) (v : pyval) : bool :=
  match v with
  | PNone | PList _ | PDict _ => true
  | PStr s =>
      match ty with
      | TStr => false
      | TInt => match str_as_int s with None => true | Some _ => false end
      | TFloat => match str_as_float s with None => true | Some _ => false end
      end
  | PBool _ =>
      match ty with TStr => true | _ => false end
  | PInt z =>
      match ty with
      | TStr => true
      | TInt => false
      | TFloat => match PyNum.float_of_int z with None => true | Some _ => false end
      end
  | PFloat f =>
      match ty with
      | TStr => true
      | TFloat => false
      | TInt => match PyNum.float_as_int f with None => true | Some _ => false end
      end
  end.

(** The field is absent from the dict, or holds an uncoercible value. *)
Definition missing_or_uncoercible `{LaxStrings} (d : dict) (f : string * pytype) : bool :=
  match dict_get (fst f) d with
  | None => true
  | Some v => uncoercible (snd f) v
  end.

(** A stop record that is no object, or lacks [type], [id], [attributes] or
    one of the seven attributes, or holds an uncoercible value in one of
    them. *)
Definition malformed_stop `{LaxStrings} (item : pyval) : bool :=
  match item with
  | PDict e =>
      missing_or_uncoercible e ("type", TStr)
      || missing_or_uncoercible e ("id", TStr)
      || match dict_get "attributes" e with
         | Some (PDict a) => existsb (missing_or_uncoercible a) StopAttributes_fields
         | _ => true
         end
  | _ => true
  end.

(** Some field of the record holds a value whose type is not the declared
    one (the record is otherwise complete). *)
Definition mistyped_field (a : dict) : bool :=
  existsb
    (fun f => match dict_get (fst f) a with
              | Some v => negb (has_type (snd f) v)
              | None => false
              end)
    StopAttributes_fields.

(** ** Validators and what they read *)

(** A validator whose only failure is a [ValidationError]. *)
Definition only_validation_errors {A} (f : pyval -> result A) : Prop :=
  forall v e, f v = Raise e -> e = ValidationError.

(** The record [s] was read off the stop object [item]: every declared field
    was found there and validated into the field of the same name. *)
Definition stop_read_from `{LaxStrings} (item : pyval) (s : Stop.t) : Prop :=
  exists e a,
    item = PDict e
    /\ Pydantic.field e "type" Pydantic.validate_str = Ok (Stop.type s)
    /\ Pydantic.field e "id" Pydantic.validate_str = Ok (Stop.id s)
    /\ dict_get "attributes" e = Some (PDict a)
    /\ (let r := Stop.attributes s in
        Pydantic.field a "location_type" Pydantic.validate_int
          = Ok (StopAttributes.location_type r)
        /\ Pydantic.field a "stop_code" Pydantic.validate_str
          = Ok (StopAttributes.stop_code r)
        /\ Pydantic.field a "stop_id" Pydantic.validate_str
          = Ok (StopAttributes.stop_id r)
        /\ Pydantic.field a "stop_lat" Pydantic.validate_float
          = Ok (StopAttributes.stop_lat r)
        /\ Pydantic.field a "stop_lon" Pydantic.validate_float
          = Ok (StopAttributes.stop_lon r)
        /\ Pydantic.field a "stop_name" Pydantic.validate_str
          = Ok (StopAttributes.stop_name r)
        /\ Pydantic.field a "wheelchair_boarding" Pydantic.validate_int
          = Ok (StopAttributes.wheelchair_boarding r)).

(** ** Requests and outcomes *)

(** The call [search_stop] is expected to issue when the clock has been read
    [ticks w] times. *)
Definition search_stop_request (self : ATService.t) (w : world) : request :=
  let now := clock w (ticks w) in
  {| req_method := "GET";
     req_url := PyStr.format_value (ATService.base_url self)
                ++ "/stops?filter[date]="
                ++ PyTime.pad4 (year now) ++ "-" ++ PyTime.pad2 (month now)
                ++ "-" ++ PyTime.pad2 (day now);
     req_headers := ATService.headers self |}.

(** The call [get_stop_trips_by_stop_id] is expected to issue: the date comes
    from one read of the clock and the hour from the next. *)
Definition stop_trips_request (self : ATService.t) (stop_id : string)
    (w : world) : request :=
  let today := clock w (ticks w) in
  let now := clock w (S (ticks w)) in
  {| req_method := "GET";
     req_url := PyStr.format_value (ATService.base_url self)
                ++ "/stops/" ++ PyStr.strip stop_id
                ++ "/stoptrips?filter[date]="
                ++ PyTime.pad4 (year today) ++ "-" ++ PyTime.pad2 (month today)
                ++ "-" ++ PyTime.pad2 (day today)
                ++ "&filter[start_hour]=" ++ PyTime.pad2 (hour now);
     req_headers := ATService.headers self |}.

(** The world after [reads] reads of the clock and the one call [r]. *)
Definition after_call (w : world) (reads : nat) (r : request) : world :=
  {| clock := clock w; ticks := reads + ticks w;
     upstream := upstream w; calls := calls w ++ [r] |}.

(** What a caller gets out of an upstream outcome: the status code plays no
    part. *)
Definition received {A} (validate : pyval -> result A) (o : http_outcome)
    : result A :=
  match o with
  | ConnectionFailed => Raise RequestError
  | Response _ None => Raise JSONDecodeError
  | Response _ (Some body) => validate body
  end.

(** ** Reading decimal digits back *)

Definition digit_value (c : ascii) : option nat :=
  let n := nat_of_ascii c in
  if ((48 <=? n) && (n <=? 57))%nat then Some (n - 48) else None.

Fixpoint decimal_value_from (acc : nat) (s : string) : option nat :=
  match s with
  | EmptyString => Some acc
  | String c r =>
      match digit_value c with
      | Some d => decimal_value_from (10 * acc + d) r
      | None => None
      end
  end.

(** The number a non-empty string of decimal digits stands for. *)
Definition decimal_value (s : string) : option nat :=
  match s with
  | EmptyString => None
  | _ => decimal_value_from 0 s
  end.

(** ** The configured service *)

(** The headers [__init__] builds from the environment. *)
Definition configured_headers (getenv : string -> option string)
    : list (string * option string) :=
  [ ("Content-Type", Some "application/json");
    ("Cache-Control", Some "no-cache");
    ("Ocp-Apim-Subscription-Key", getenv "AT_API_KEY") ].

(** The keywords of a call are pairwise different. *)
Fixpoint distinct_keywords (kwargs : list (string * string)) : bool :=
  match kwargs with
  | [] => true
  | (k, _) :: r =>
      negb (existsb (fun kv => String.eqb (fst kv) k) r) && distinct_keywords r
  end.

(** The log [after] extends the log [before] by at most [n] calls. *)
Definition extends_by (n : nat) (before after : list request) : Prop :=
  exists added, after = (before ++ added)%list /\ (List.length added <= n)%nat.

(** The body is an object whose [data] is a list. *)
Definition has_data_list (v : pyval) : bool :=
  match v with
  | PDict d =>
      match dict_get "data" d with
      | Some (PList _) => true
      | _ => false
      end
  | _ => false
  end.

(** ** Example data *)

(** A reader that takes no string for a number.  The examples below carry no
    string in a numeric field, so they come out the same under any reader. *)
Definition no_numeric_strings : LaxStrings :=
  {| str_as_int := fun _ => None;
     str_as_float := fun _ => None;
     str_as_int_digit := ltac:(intros; discriminate);
     str_as_float_numeric := ltac:(intros; discriminate) |}.

(** The binary64 values of -36.848 and 174.763. *)
Definition britomart_lat : float := (-0x1.26c8b43958106p+5)%float.
Definition britomart_lon : float := (0x1.5d86a7ef9db23p+7)%float.

Definition stop_attributes (name : string) (wheelchair : pyval) : dict :=
  [ ("location_type", PInt 0); ("stop_code", PStr "100");
    ("stop_id", PStr "100-1");
    ("stop_lat", PFloat britomart_lat);
    ("stop_lon", PFloat britomart_lon);
    ("stop_name", PStr name);
    ("wheelchair_boarding", wheelchair) ].

Definition stop_envelope (type name : string) (wheelchair : pyval) : dict :=
  [ ("type", PStr type); ("id", PStr "100-1");
    ("attributes", PDict (stop_attributes name wheelchair)) ].

Definition stop_record (type name : string) (wheelchair : pyval) : pyval :=
  PDict (stop_envelope type name wheelchair).

Definition stop_value (type name : string) : Stop.t :=
  Stop.mk type "100-1"
    (StopAttributes.mk 0 "100" "100-1" britomart_lat britomart_lon name 1).

Definition britomart_payload : pyval :=
  PDict [ ("data", PList [ stop_record "stop" "Britomart Train Station" (PInt 1) ]) ].

Definition britomart_stop : Stop.t := stop_value "stop" "Britomart Train Station".

Definition stop_record_without_lat : pyval :=
  PDict [ ("type", PStr "stop"); ("id", PStr "100-1");
          ("attributes",
           PDict [ ("location_type", PInt 0); ("stop_code", PStr "100");
                   ("stop_id", PStr "100-1");
                   ("stop_lon", PFloat britomart_lon);
                   ("stop_name", PStr "Britomart Train Station");
                   ("wheelchair_boarding", PInt 1) ]) ].

(** The Britomart record with the word north for its [stop_lat]. *)
Definition stop_record_lat_north : pyval :=
  PDict [ ("type", PStr "stop"); ("id", PStr "100-1");
          ("attributes",
           PDict [ ("location_type", PInt 0); ("stop_code", PStr "100");
                   ("stop_id", PStr "100-1");
                   ("stop_lat", PStr "north");
                   ("stop_lon", PFloat britomart_lon);
                   ("stop_name", PStr "Britomart Train Station");
                   ("wheelchair_boarding", PInt 1) ]) ].

Definition trip_attributes : dict :=
  [ ("arrival_time", PStr "09:05:00");
    ("departure_time", PStr "09:06:00");
    ("direction_id", PInt 0); ("drop_off_type", PInt 0);
    ("pickup_type", PInt 0); ("route_id", PStr "EAST-201");
    ("service_date", PStr "2026-11-03");
    ("shape_id", PStr "shape-7");
    ("stop_headsign", PStr "Manukau");
    ("stop_id", PStr "100-1"); ("stop_sequence", PInt 1);
    ("trip_headsign", PStr "Manukau") ].

Definition trip_envelope (type : string) : dict :=
  [ ("type", PStr type); ("id", PStr "trip-1");
    ("attributes", PDict trip_attributes) ].

Definition trip_record (type : string) : pyval := PDict (trip_envelope type).

Definition trip_value (type : string) : StopTrip.t :=
  StopTrip.mk type "trip-1"
    (StopTripAttributes.mk "09:05:00" "09:06:00" 0 0 0 "EAST-201" "2026-11-03"
       "shape-7" "Manukau" "100-1" 1 "Manukau").

Definition example_service : ATService.t :=
  ATService.init
    (fun k => if String.eqb k "AT_BASE_URL" then Some "https://transit.example/v3"
              else if String.eqb k "AT_API_KEY" then Some "secret" else None).

(** A fresh world whose upstream answers every call with [o]; the clock
    starts on 3 November 2026 at 09:00 and moves one hour at each read. *)
Definition world_answering (o : http_outcome) : world :=
  {| clock := fun n => {| year := 2026; month := 11; day := 3; hour := 9 + n |};
     ticks := 0;
     upstream := fun _ => o;
     calls := [] |}.

(** * Properties *)

(** ** Strings *)

Section StringFacts.

Lemma append_assoc (a b c : string) : (a ++ b) ++ c = a ++ (b ++ c).
Proof.
  induction a as [|x a IH]; simpl; [reflexivity | now rewrite IH].
Qed.

Lemma append_empty_r (a : string) : a ++ "" = a.
Proof.
  induction a as [|x a IH]; simpl; [reflexivity | now rewrite IH].
Qed.

Lemma append_eq_empty (a b : string) : a ++ b = "" -> a = "" /\ b = "".
Proof.
  destruct a; simpl; [auto | discriminate].
Qed.

Lemma prefix_spec (n h : string) :
  prefix n h = true <-> exists post, h = n ++ post.
Proof.
  revert h; induction n as [|c n IH]; intros h.
  - destruct h; simpl; split; eauto.
  - destruct h as [|c' h]; simpl.
    + split; [discriminate | intros [post E]; discriminate].
    + destruct (ascii_dec c c') as [->|ne].
      * rewrite IH. split; intros [post E]; exists post.
        -- now rewrite E.
        -- now inversion E.
      * split; [discriminate | intros [post E]; congruence].
Qed.

(** [contains] holds exactly when the needle occurs somewhere in the hay. *)
Lemma contains_spec (n h : string) :
  PyStr.contains n h = true <-> exists pre post, h = pre ++ n ++ post.
Proof.
  induction h as [|c h IH].
  - cbn [PyStr.contains]. rewrite orb_false_r, prefix_spec. split.
    + intros [post E]. now exists "", post.
    + intros [pre [post E]]. symmetry in E.
      apply append_eq_empty in E as [-> E]. apply append_eq_empty in E as [-> ->].
      now exists "".
  - cbn [PyStr.contains]. rewrite orb_true_iff, IH, prefix_spec. split.
    + intros [[post E] | [pre [post E]]].
      * now exists "", post.
      * exists (String c pre), post. simpl. now rewrite E.
    + intros [[|c' pre] [post E]].
      * left. now exists post.
      * right. exists pre, post. simpl in E. now inversion E.
Qed.

Lemma contains_empty (h : string) : PyStr.contains "" h = true.
Proof.
  apply contains_spec. now exists "", h.
Qed.

Lemma lower_empty : PyStr.lower "" = "".
Proof. reflexivity. Qed.

Lemma lstrip_all_space (p s : string) :
  PyStr.all_space p = true -> PyStr.lstrip (p ++ s) = PyStr.lstrip s.
Proof.
  induction p as [|c p IH]; simpl; [reflexivity|].
  intros H. apply andb_true_iff in H as [Hc Hp]. now rewrite Hc, IH.
Qed.

Lemma rstrip_all_space (q : string) :
  PyStr.all_space q = true -> PyStr.rstrip q = "".
Proof.
  induction q as [|c q IH]; simpl; [reflexivity|].
  intros H. apply andb_true_iff in H as [Hc Hq]. now rewrite IH, Hc.
Qed.

Lemma rstrip_append_all_space (s q : string) :
  PyStr.all_space q = true -> PyStr.rstrip (s ++ q) = PyStr.rstrip s.
Proof.
  intros Hq. induction s as [|c s IH]; simpl.
  - now apply rstrip_all_space.
  - now rewrite IH.
Qed.

Lemma lstrip_append (s q : string) :
  PyStr.all_space q = true ->
  PyStr.rstrip (PyStr.lstrip (s ++ q)) = PyStr.rstrip (PyStr.lstrip s).
Proof.
  intros Hq. induction s as [|c s IH]; simpl.
  - rewrite rstrip_all_space; [reflexivity|].
    clear -Hq. induction q as [|c q IH]; simpl in *; [reflexivity|].
    apply andb_true_iff in Hq as [Hc Hq]. rewrite Hc. auto.
  - destruct (PyStr.is_space c); [exact IH|].
    change (String c (s ++ q)) with (String c s ++ q).
    now apply rstrip_append_all_space.
Qed.

(** Whitespace around a query does not survive [strip]. *)
Lemma strip_padding (p s q : string) :
  PyStr.all_space p = true -> PyStr.all_space q = true ->
  PyStr.strip (p ++ s ++ q) = PyStr.strip s.
Proof.
  intros Hp Hq. unfold PyStr.strip.
  rewrite lstrip_all_space by assumption. now apply lstrip_append.
Qed.

Lemma strip_all_space (s : string) :
  PyStr.all_space s = true -> PyStr.strip s = "".
Proof.
  intros H. rewrite <- (append_empty_r s).
  unfold PyStr.strip. now rewrite lstrip_all_space.
Qed.

End StringFacts.


(** ** Results *)

Section ResultFacts.

Context {A B : Type}.

Lemma rbind_ok (r : result A) (k : A -> result B) (b : B) :
  rbind r k = Ok b -> exists a, r = Ok a /\ k a = Ok b.
Proof.
  destruct r as [a|e]; simpl; [eauto | discriminate].
Qed.

Lemma rbind_raise (r : result A) (k : A -> result B) (e : exn) :
  rbind r k = Raise e -> r = Raise e \/ exists a, r = Ok a /\ k a = Raise e.
Proof.
  destruct r as [a|e']; simpl; [eauto | intros [= ->]; auto].
Qed.

End ResultFacts.

Section MapResultFacts.

Context {A B : Type}.

(** [map_result] succeeds exactly when every item does, position by
    position. *)
Lemma map_result_ok (f : A -> result B) (l : list A) (l' : list B) :
  map_result f l = Ok l' <-> Forall2 (fun a b => f a = Ok b) l l'.
Proof.
  revert l'; induction l as [|a l IH]; intros l'; simpl.
  - split; [intros [= <-]; constructor | inversion 1; reflexivity].
  - split.
    + intros H. apply rbind_ok in H as [b [Hb H]].
      apply rbind_ok in H as [bs [Hbs [= <-]]].
      constructor; [assumption | now apply IH].
    + inversion 1 as [|? b ? bs Hb Hbs]; subst.
      apply IH in Hbs. now rewrite Hb, Hbs.
Qed.

Lemma map_result_raise (f : A -> result B) (l : list A) (e : exn) :
  map_result f l = Raise e -> exists a, In a l /\ f a = Raise e.
Proof.
  induction l as [|a l IH]; simpl; [discriminate|].
  intros H. apply rbind_raise in H as [H | [b [_ H]]].
  - eauto.
  - apply rbind_raise in H as [H | [bs [_ H]]]; [|discriminate].
    destruct (IH H) as [a' [Hin Ha']]. eauto.
Qed.

Lemma map_result_fails (f : A -> result B) (l : list A) (a : A) (e : exn) :
  In a l -> f a = Raise e -> exists e', map_result f l = Raise e'.
Proof.
  intros Hin Ha. induction l as [|x l IH]; simpl in *; [contradiction|].
  destruct Hin as [->|Hin].
  - rewrite Ha. simpl. eauto.
  - destruct (f x); simpl; [|eauto].
    destruct (IH Hin) as [e' ->]. simpl. eauto.
Qed.

End MapResultFacts.

(** ** Validation *)

Section ValidationFacts.

Context `{LaxStrings}.

Lemma of_option_only {A} (o : option A) (e : exn) :
  Pydantic.of_option o = Raise e -> e = ValidationError.
Proof.
  destruct o; simpl; congruence.
Qed.

Lemma validate_str_only : only_validation_errors Pydantic.validate_str.
Proof.
  intros [] e; simpl; congruence.
Qed.

Lemma validate_int_only : only_validation_errors Pydantic.validate_int.
Proof.
  intros [] e; simpl; try congruence; apply of_option_only.
Qed.

Lemma validate_float_only : only_validation_errors Pydantic.validate_float.
Proof.
  intros [] e; simpl; try congruence; apply of_option_only.
Qed.

Lemma field_only {A} (f : pyval -> result A) (d : dict) (n : string) (e : exn) :
  only_validation_errors f -> Pydantic.field d n f = Raise e -> e = ValidationError.
Proof.
  unfold Pydantic.field. intros Hf. destruct (dict_get n d); [apply Hf | congruence].
Qed.

Lemma validate_list_only {A} (f : pyval -> result A) :
  only_validation_errors f -> only_validation_errors (Pydantic.validate_list f).
Proof.
  intros Hf [] e; simpl; try congruence.
  intros E. apply map_result_raise in E as [a [_ Ha]]. eauto.
Qed.

Create HintDb validators.

#[local] Hint Resolve validate_str_only validate_int_only validate_float_only
  : validators.

(** Peels one field off a model's validator that failed. *)
Ltac failed_field E :=
  apply rbind_raise in E as [E | [? [_ E]]];
  [ eapply field_only; [|exact E]; auto with validators | ].

Lemma StopAttributes_only : only_validation_errors StopAttributes.model_validate.
Proof.
  intros [] e E; simpl in E; try congruence.
  do 7 failed_field E. discriminate.
Qed.

Lemma StopTripAttributes_only :
  only_validation_errors StopTripAttributes.model_validate.
Proof.
  intros [] e E; simpl in E; try congruence.
  do 12 failed_field E. discriminate.
Qed.

#[local] Hint Resolve StopAttributes_only StopTripAttributes_only : validators.

Lemma Stop_only : only_validation_errors Stop.model_validate.
Proof.
  intros [] e E; simpl in E; try congruence.
  do 3 failed_field E. discriminate.
Qed.

Lemma StopTrip_only : only_validation_errors StopTrip.model_validate.
Proof.
  intros [] e E; simpl in E; try congruence.
  do 3 failed_field E. discriminate.
Qed.

Lemma StopResponse_only : only_validation_errors StopResponse.model_validate.
Proof.
  intros [] e E; simpl in E; try congruence.
  apply rbind_raise in E as [E | [? [_ E]]]; [|discriminate].
  eapply field_only; [|exact E]. apply validate_list_only, Stop_only.
Qed.

Lemma StopTripResponse_only :
  only_validation_errors StopTripResponse.model_validate.
Proof.
  intros [] e E; simpl in E; try congruence.
  apply rbind_raise in E as [E | [? [_ E]]]; [|discriminate].
  eapply field_only; [|exact E]. apply validate_list_only, StopTrip_only.
Qed.

(** *** What a successful validation says about its input *)

(** Peels one field off a model's validator that succeeded. *)
Ltac read_field E :=
  let x := fresh "x" in
  let Hx := fresh "Hx" in
  apply rbind_ok in E as [x [Hx E]].

Lemma StopAttributes_ok (v : pyval) (r : StopAttributes.t) :
  StopAttributes.model_validate v = Ok r ->
  exists a, v = PDict a
    /\ Pydantic.field a "location_type" Pydantic.validate_int
         = Ok (StopAttributes.location_type r)
    /\ Pydantic.field a "stop_code" Pydantic.validate_str
         = Ok (StopAttributes.stop_code r)
    /\ Pydantic.field a "stop_id" Pydantic.validate_str
         = Ok (StopAttributes.stop_id r)
    /\ Pydantic.field a "stop_lat" Pydantic.validate_float
         = Ok (StopAttributes.stop_lat r)
    /\ Pydantic.field a "stop_lon" Pydantic.validate_float
         = Ok (StopAttributes.stop_lon r)
    /\ Pydantic.field a "stop_name" Pydantic.validate_str
         = Ok (StopAttributes.stop_name r)
    /\ Pydantic.field a "wheelchair_boarding" Pydantic.validate_int
         = Ok (StopAttributes.wheelchair_boarding r).
Proof.
  destruct v as [| | | | | |a]; simpl; try discriminate.
  intros E. do 7 read_field E. injection E as <-. simpl.
  exists a. repeat split; assumption.
Qed.

Lemma Stop_ok (item : pyval) (s : Stop.t) :
  Stop.model_validate item = Ok s -> stop_read_from item s.
Proof.
  destruct item as [| | | | | |e]; simpl; try discriminate.
  intros E. do 3 read_field E. injection E as <-. simpl.
  unfold Pydantic.field in Hx1 at 1.
  destruct (dict_get "attributes" e) as [v|] eqn:Ev; [|discriminate].
  apply StopAttributes_ok in Hx1 as [a [-> Ha]].
  exists e, a. simpl. repeat split; try assumption; apply Ha.
Qed.

Lemma StopResponse_ok (v : pyval) (resp : StopResponse.t) :
  StopResponse.model_validate v = Ok resp ->
  exists d items,
    v = PDict d /\ dict_get "data" d = Some (PList items)
    /\ Forall2 (fun item s => Stop.model_validate item = Ok s)
         items (StopResponse.data resp).
Proof.
  destruct v as [| | | | | |d]; simpl; try discriminate.
  intros E. read_field E. injection E as <-. simpl.
  unfold Pydantic.field in Hx.
  destruct (dict_get "data" d) as [[| | | | |items|]|] eqn:Ed; try discriminate.
  exists d, items. repeat split; [exact Ed | now apply map_result_ok].
Qed.

Lemma StopTripResponse_ok (v : pyval) (resp : StopTripResponse.t) :
  StopTripResponse.model_validate v = Ok resp ->
  exists d items,
    v = PDict d /\ dict_get "data" d = Some (PList items)
    /\ Forall2 (fun item s => StopTrip.model_validate item = Ok s)
         items (StopTripResponse.data resp).
Proof.
  destruct v as [| | | | | |d]; simpl; try discriminate.
  intros E. read_field E. injection E as <-. simpl.
  unfold Pydantic.field in Hx.
  destruct (dict_get "data" d) as [[| | | | |items|]|] eqn:Ed; try discriminate.
  exists d, items. repeat split; [exact Ed | now apply map_result_ok].
Qed.

End ValidationFacts.


(** *** What makes a validation fail *)

Section MalformedFacts.

Context `{LaxStrings}.

(** A field is missing or uncoercible exactly when its validator fails. *)
Lemma uncoercible_str (d : dict) (n : string) :
  missing_or_uncoercible d (n, TStr) = false
  <-> exists x, Pydantic.field d n Pydantic.validate_str = Ok x.
Proof.
  unfold missing_or_uncoercible, Pydantic.field. simpl.
  destruct (dict_get n d) as [[]|]; simpl;
    (split; [intros E; try discriminate E; eauto | intros [x E]; congruence]).
Qed.

Lemma uncoercible_int (d : dict) (n : string) :
  missing_or_uncoercible d (n, TInt) = false
  <-> exists x, Pydantic.field d n Pydantic.validate_int = Ok x.
Proof.
  unfold missing_or_uncoercible, Pydantic.field. simpl.
  destruct (dict_get n d) as [[| | |f|s| |]|]; simpl;
    try destruct (PyNum.float_as_int f); try destruct (str_as_int s); simpl;
    (split; [intros E; try discriminate E; eauto | intros [x E]; congruence]).
Qed.

Lemma uncoercible_float (d : dict) (n : string) :
  missing_or_uncoercible d (n, TFloat) = false
  <-> exists x, Pydantic.field d n Pydantic.validate_float = Ok x.
Proof.
  unfold missing_or_uncoercible, Pydantic.field. simpl.
  destruct (dict_get n d) as [[| |z| |s| |]|]; simpl;
    try destruct (PyNum.float_of_int z); try destruct (str_as_float s); simpl;
    (split; [intros E; try discriminate E; eauto | intros [x E]; congruence]).
Qed.

(** No reader takes a string without a digit for an int, nor one that has
    no digit and spells neither inf nor nan for a float. *)
Lemma not_numeric_uncoercible (s : string) :
  (PyStr.has_digit s = false -> uncoercible TInt (PStr s) = true)
  /\ (PyStr.has_digit s || PyStr.names_inf_or_nan s = false ->
      uncoercible TFloat (PStr s) = true).
Proof.
  split; intros Hs; simpl.
  - destruct (str_as_int s) as [z|] eqn:E; [|reflexivity].
    apply str_as_int_digit in E. congruence.
  - destruct (str_as_float s) as [f|] eqn:E; [|reflexivity].
    apply str_as_float_numeric in E. congruence.
Qed.

Ltac field_is_read Hbad lemma :=
  exfalso;
  match goal with
  | E : Pydantic.field ?d ?n _ = Ok ?x |- _ =>
      match type of Hbad with
      | missing_or_uncoercible d (n, _) = true =>
          assert (Hgood : missing_or_uncoercible d (n, _) = false)
            by (apply lemma; eauto);
          congruence
      end
  end.

(** A stop record is malformed exactly when it does not validate. *)
Lemma malformed_stop_fails (item : pyval) :
  malformed_stop item = true -> Stop.model_validate item = Raise ValidationError.
Proof.
  intros Hbad. destruct (Stop.model_validate item) as [s|e] eqn:E.
  - exfalso. apply Stop_ok in E as [e [a [-> [Ht [Hi [Ha Hr]]]]]].
    simpl in Hbad. rewrite Ha in Hbad.
    destruct Hr as [H1 [H2 [H3 [H4 [H5 [H6 H7]]]]]].
    repeat (apply orb_true_iff in Hbad as [Hbad | Hbad]);
      try discriminate;
      first [ field_is_read Hbad uncoercible_str
            | field_is_read Hbad uncoercible_int
            | field_is_read Hbad uncoercible_float ].
  - f_equal. eapply Stop_only; eassumption.
Qed.

Lemma well_formed_stop_validates (item : pyval) :
  malformed_stop item = false -> exists s, Stop.model_validate item = Ok s.
Proof.
  destruct item as [| | | | | |e]; simpl; try discriminate.
  intros Hgood.
  apply orb_false_iff in Hgood as [Hgood Ha].
  apply orb_false_iff in Hgood as [Ht Hi].
  apply uncoercible_str in Ht as [tag Ht], Hi as [i Hi].
  rewrite Ht, Hi. cbn [rbind]. unfold Pydantic.field at 1.
  destruct (dict_get "attributes" e) as [[| | | | | |a]|]; try discriminate.
  cbn [existsb StopAttributes_fields] in Ha.
  repeat (apply orb_false_iff in Ha as [?F Ha]).
  cbn [StopAttributes.model_validate].
  repeat match goal with
         | F : missing_or_uncoercible a (_, TStr) = false |- _ =>
             apply uncoercible_str in F as [? F]; rewrite F; clear F
         | F : missing_or_uncoercible a (_, TInt) = false |- _ =>
             apply uncoercible_int in F as [? F]; rewrite F; clear F
         | F : missing_or_uncoercible a (_, TFloat) = false |- _ =>
             apply uncoercible_float in F as [? F]; rewrite F; clear F
         end.
  cbn. eauto.
Qed.

(** A list of records validates when none of them is malformed. *)
Lemma well_formed_stops_validate (items : list pyval) :
  existsb malformed_stop items = false ->
  exists l, map_result Stop.model_validate items = Ok l.
Proof.
  induction items as [|item items IH]; simpl; [eauto|].
  intros Hgood. apply orb_false_iff in Hgood as [Hitem Hrest].
  destruct (well_formed_stop_validates item Hitem) as [s ->].
  destruct (IH Hrest) as [l ->]. simpl. eauto.
Qed.

End MalformedFacts.


(** ** The client, step by step *)

Section ClientFacts.

Context `{LaxStrings}.

Lemma strftime_date (dt : datetime) :
  PyTime.strftime dt "%Y-%m-%d"
  = PyTime.pad4 (year dt) ++ "-" ++ PyTime.pad2 (month dt)
    ++ "-" ++ PyTime.pad2 (day dt).
Proof. reflexivity. Qed.

Lemma strftime_hour (dt : datetime) :
  PyTime.strftime dt "%H" = PyTime.pad2 (hour dt).
Proof. reflexivity. Qed.

Lemma get_url_search_stop (self : ATService.t) (journey_date : string) :
  ATService._get_url self "search_stop" [("journey_date", journey_date)]
  = Ok (PyStr.format_value (ATService.base_url self)
        ++ "/stops?filter[date]=" ++ journey_date).
Proof.
  unfold ATService._get_url. cbn. now rewrite append_empty_r.
Qed.

Lemma get_url_stop_trips (self : ATService.t)
    (stop_id journey_date journey_hour : string) :
  ATService._get_url self "stop_trips_by_stop_id"
    [ ("stop_id", stop_id); ("journey_date", journey_date);
      ("journey_hour", journey_hour) ]
  = Ok (PyStr.format_value (ATService.base_url self)
        ++ "/stops/" ++ stop_id ++ "/stoptrips?filter[date]=" ++ journey_date
        ++ "&filter[start_hour]=" ++ journey_hour).
Proof.
  unfold ATService._get_url. cbn. now rewrite append_empty_r.
Qed.

(** The loop of [search_stop] is a filter that keeps the order. *)
Lemma fold_visit (name : string) (l : list Stop.t) (acc : StopResponse.t) :
  fold_left (ATService.visit name) l acc
  = StopResponse.mk
      (StopResponse.data acc ++ filter (ATService.name_matches name) l).
Proof.
  revert acc; induction l as [|s l IH]; intros [acc]; simpl.
  - now rewrite app_nil_r.
  - rewrite IH. unfold ATService.visit.
    destruct (ATService.name_matches name s); simpl; [|reflexivity].
    now rewrite <- app_assoc.
Qed.

(** One run of [search_stop] on a non-empty name: one read of the clock, one
    call, and the filtered list or the failure of the call. *)
Lemma search_stop_run (self : ATService.t) (name : string) (w : world) :
  name <> "" ->
  ATService.search_stop self (Some name) w
  = (rbind (received StopResponse.model_validate
              (upstream w (search_stop_request self w)))
       (fun resp =>
          Ok (StopResponse.mk
                (filter (ATService.name_matches (PyStr.strip name))
                   (StopResponse.data resp)))),
     after_call w 1 (search_stop_request self w)).
Proof.
  intros Hne. unfold ATService.search_stop.
  destruct (String.eqb_spec name ""); [contradiction|].
  unfold bind at 1. unfold ATService._get_date_time, bind at 1, datetime_now, ret at 1.
  rewrite strftime_date.
  unfold bind at 1, lift at 1. rewrite get_url_search_stop.
  unfold bind at 1, ATService._make_request, bind at 1, requests_request.
  cbn [upstream clock ticks calls].
  change {| req_method := "GET";
            req_url := _;
            req_headers := ATService.headers self |}
    with (search_stop_request self w).
  unfold after_call. cbn [Nat.add].
  destruct (upstream w (search_stop_request self w)) as [|status [body|]];
    cbn [received rbind lift response_json snd]; try reflexivity.
  unfold bind, lift, ret.
  destruct (StopResponse.model_validate body) as [resp|e]; cbn [rbind];
    [|reflexivity].
  now rewrite fold_visit.
Qed.

(** One run of [get_stop_trips_by_stop_id] on a non-empty stop id: two reads
    of the clock, one call, and the validated list or the failure of the
    call. *)
Lemma get_stop_trips_run (self : ATService.t) (stop_id : string) (w : world) :
  stop_id <> "" ->
  ATService.get_stop_trips_by_stop_id self (Some stop_id) w
  = (received StopTripResponse.model_validate
       (upstream w (stop_trips_request self stop_id w)),
     after_call w 2 (stop_trips_request self stop_id w)).
Proof.
  intros Hne. unfold ATService.get_stop_trips_by_stop_id.
  destruct (String.eqb_spec stop_id ""); [contradiction|].
  unfold bind at 1. unfold ATService._get_date_time, bind at 1, datetime_now, ret at 1.
  rewrite strftime_date.
  unfold bind at 1. unfold ATService._get_hour, bind at 1, datetime_now, ret at 1.
  cbn [upstream clock ticks calls]. rewrite strftime_hour.
  unfold bind at 1, lift at 1. rewrite get_url_stop_trips.
  unfold bind at 1, ATService._make_request, bind at 1, requests_request.
  cbn [upstream clock ticks calls].
  change {| req_method := "GET";
            req_url := _;
            req_headers := ATService.headers self |}
    with (stop_trips_request self stop_id w).
  unfold after_call. cbn [Nat.add].
  destruct (upstream w (stop_trips_request self stop_id w)) as [|status [body|]];
    cbn [received rbind lift response_json snd]; try reflexivity.
  unfold bind, lift, ret.
  destruct (StopTripResponse.model_validate body) as [resp|e]; reflexivity.
Qed.

End ClientFacts.


(** * The claims *)

(** C1.  On a non-empty name, when the upstream answers with a body that
    validates, [search_stop] returns exactly the validated stops whose
    [stop_name], lower-cased, has the trimmed and lower-cased name as a
    substring, in the order of the upstream response, after one call.  On the
    one-record Britomart payload, the name britomart returns that record and
    the name queen street returns the empty list. *)
Theorem search_stop_returns_matches `{LaxStrings} (self : ATService.t) (w : world) :
  (forall (name : string) (status : Z) (body : pyval) (resp : StopResponse.t),
      name <> "" ->
      upstream w (search_stop_request self w) = Response status (Some body) ->
      StopResponse.model_validate body = Ok resp ->
      let query := PyStr.lower (PyStr.strip name) in
      let stop_name s := StopAttributes.stop_name (Stop.attributes s) in
      let kept :=
        filter (fun s => PyStr.contains query (PyStr.lower (stop_name s)))
          (StopResponse.data resp) in
      ATService.search_stop self (Some name) w
      = (Ok (StopResponse.mk kept), after_call w 1 (search_stop_request self w))
      /\ (forall s, In s kept <->
                    In s (StopResponse.data resp)
                    /\ exists pre post,
                         PyStr.lower (stop_name s) = pre ++ query ++ post))
  /\ (forall status : Z,
         upstream w (search_stop_request self w)
         = Response status (Some britomart_payload) ->
         fst (ATService.search_stop self (Some "britomart") w)
         = Ok (StopResponse.mk [britomart_stop])
         /\ fst (ATService.search_stop self (Some "queen street") w)
            = Ok (StopResponse.mk [])).
Proof.
  split.
  - intros name status body resp Hne Hup Hval query stop_name kept. split.
    + rewrite search_stop_run by assumption. now rewrite Hup; cbn; rewrite Hval.
    + intros s. unfold kept. rewrite filter_In, contains_spec. reflexivity.
  - intros status Hup.
    rewrite !search_stop_run by discriminate. rewrite Hup. now split.
Qed.

Lemma search_stop_returns_matches_witness :
  "britomart" <> ""
  /\ ATService.search_stop (H := no_numeric_strings) example_service
       (Some "britomart")
       (world_answering (Response 200 (Some britomart_payload)))
     = (Ok (StopResponse.mk [britomart_stop]),
        after_call (world_answering (Response 200 (Some britomart_payload))) 1
          {| req_method := "GET";
             req_url := "https://transit.example/v3/stops?filter[date]=2026-11-03";
             req_headers := ATService.headers example_service |}).
Proof.
  split; [discriminate|].
  exact (proj1 (proj1 (search_stop_returns_matches (H := no_numeric_strings)
                         example_service
                         (world_answering (Response 200 (Some britomart_payload))))
                  "britomart" 200%Z britomart_payload
                  (StopResponse.mk [britomart_stop])
                  ltac:(discriminate) eq_refl eq_refl)).
Defined.

(** C2.  With no name ([None]) or the empty name, [search_stop] returns a
    response with an empty list and leaves the world as it was: no call is
    added to the log and the clock is not read.  The tool binding does the
    same. *)
Theorem search_stop_without_name `{LaxStrings} (self : ATService.t) (w : world) :
  ATService.search_stop self None w = (Ok (StopResponse.mk []), w)
  /\ ATService.search_stop self (Some "") w = (Ok (StopResponse.mk []), w)
  /\ calls (snd (App.search_stop self None w)) = calls w
  /\ calls (snd (App.search_stop self (Some "") w)) = calls w.
Proof.
  repeat split.
Qed.

(** C3.  With no stop id ([None]) or the empty stop id,
    [get_stop_trips_by_stop_id] returns a response with an empty list and
    leaves the world as it was: no call is added to the log and the clock is
    not read.  The tool binding does the same. *)
Theorem get_stop_trips_without_stop_id `{LaxStrings} (self : ATService.t)
    (w : world) :
  ATService.get_stop_trips_by_stop_id self None w
  = (Ok (StopTripResponse.mk []), w)
  /\ ATService.get_stop_trips_by_stop_id self (Some "") w
     = (Ok (StopTripResponse.mk []), w)
  /\ calls (snd (App.get_stop_trips_by_stop_id self None w)) = calls w
  /\ calls (snd (App.get_stop_trips_by_stop_id self (Some "") w)) = calls w.
Proof.
  repeat split.
Qed.

(** C4.  On a non-empty stop id, [get_stop_trips_by_stop_id] issues one GET
    whose URL is the base URL followed by /stops/, the trimmed stop id,
    /stoptrips?filter[date]=, the date YYYY-MM-DD of one read of the clock,
    &filter[start_hour]= and the hour HH of the next read; when the upstream
    answers with a body that validates, the result is the validated response
    itself, one trip per item of the body and in the same order. *)
Theorem get_stop_trips_url_and_result `{LaxStrings} (self : ATService.t)
    (stop_id : string) (w : world) :
  stop_id <> "" ->
  let today := clock w (ticks w) in
  let now := clock w (S (ticks w)) in
  let req :=
    {| req_method := "GET";
       req_url := PyStr.format_value (ATService.base_url self)
                  ++ "/stops/" ++ PyStr.strip stop_id
                  ++ "/stoptrips?filter[date]="
                  ++ PyTime.pad4 (year today) ++ "-" ++ PyTime.pad2 (month today)
                  ++ "-" ++ PyTime.pad2 (day today)
                  ++ "&filter[start_hour]=" ++ PyTime.pad2 (hour now);
       req_headers := ATService.headers self |} in
  let run := ATService.get_stop_trips_by_stop_id self (Some stop_id) w in
  calls (snd run) = (calls w ++ [req])%list
  /\ ticks (snd run) = 2 + ticks w
  /\ (forall (status : Z) (body : pyval) (resp : StopTripResponse.t),
         upstream w req = Response status (Some body) ->
         StopTripResponse.model_validate body = Ok resp ->
         fst run = Ok resp
         /\ exists d items,
              body = PDict d /\ dict_get "data" d = Some (PList items)
              /\ Forall2 (fun item trip => StopTrip.model_validate item = Ok trip)
                   items (StopTripResponse.data resp)).
Proof.
  intros Hne today now req run. unfold run.
  rewrite get_stop_trips_run by assumption.
  change (stop_trips_request self stop_id w) with req.
  split; [reflexivity|]. split; [reflexivity|].
  intros status body resp Hup Hval. split.
  - cbn [fst]. now rewrite Hup.
  - now apply StopTripResponse_ok.
Qed.

Lemma get_stop_trips_url_and_result_witness :
  " 100-1 " <> ""
  /\ calls (snd (ATService.get_stop_trips_by_stop_id (H := no_numeric_strings)
                   example_service (Some " 100-1 ")
                   (world_answering
                      (Response 200 (Some (PDict [("data", PList [trip_record "stoptrip"])]))))))
     = [ {| req_method := "GET";
            req_url := "https://transit.example/v3/stops/100-1/stoptrips?filter[date]=2026-11-03&filter[start_hour]=10";
            req_headers := ATService.headers example_service |} ].
Proof.
  split; [discriminate|].
  exact (proj1 (get_stop_trips_url_and_result (H := no_numeric_strings)
                  example_service " 100-1 "
                  (world_answering
                     (Response 200 (Some (PDict [("data", PList [trip_record "stoptrip"])]))))
                  ltac:(discriminate))).
Defined.


(** C5, as stated, fails: a stop record that holds a JSON boolean, or a float,
    where the model declares an int is accepted, and the value is converted.
    [StopAttributes] sets no strict configuration, so pydantic coerces. *)
Lemma lax_mode_accepts_mistyped_field :
  mistyped_field (stop_attributes "Britomart Train Station" (PBool true)) = true
  /\ StopResponse.model_validate (H := no_numeric_strings)
       (PDict [ ("data", PList [ stop_record "stop" "Britomart Train Station"
                                   (PBool true) ]) ])
     = Ok (StopResponse.mk [britomart_stop])
  /\ StopResponse.model_validate (H := no_numeric_strings)
       (PDict [ ("data", PList [ stop_record "stop" "Britomart Train Station"
                                   (PFloat 1) ]) ])
     = Ok (StopResponse.mk [britomart_stop]).
Proof.
  repeat split.
Qed.

(** C5, amended.  When some stop record of the payload is no object, lacks
    [type], [id], [attributes] or one of the seven attributes, or holds in one
    of them a value that lax mode does not convert to the declared type (null,
    a list or an object; anything but a string for a [str]; for an [int] a
    float that is no whole number within 64 bits or a string that does not
    read as an int; for a [float] an int beyond binary64 or a string that does
    not read as a float, such as the word north), validation of the whole
    response fails with a [ValidationError].  Those are the only records that
    fail: a payload none of whose records is of that kind validates, values
    of another type that lax mode converts included.  When validation
    succeeds, every returned record was read off the record at the same
    position of the payload, each declared field from the field of the same
    name: no record is partly populated. *)
Theorem malformed_stop_fails_whole_response `{LaxStrings} (d : dict) :
  (forall items : list pyval,
      dict_get "data" d = Some (PList items) ->
      existsb malformed_stop items = true ->
      StopResponse.model_validate (PDict d) = Raise ValidationError)
  /\ (forall items : list pyval,
         dict_get "data" d = Some (PList items) ->
         existsb malformed_stop items = false ->
         exists resp, StopResponse.model_validate (PDict d) = Ok resp)
  /\ (forall resp : StopResponse.t,
         StopResponse.model_validate (PDict d) = Ok resp ->
         exists items,
           dict_get "data" d = Some (PList items)
           /\ Forall2 stop_read_from items (StopResponse.data resp))
  /\ (forall s : string,
         (PyStr.has_digit s = false -> uncoercible TInt (PStr s) = true)
         /\ (PyStr.has_digit s || PyStr.names_inf_or_nan s = false ->
             uncoercible TFloat (PStr s) = true))
  /\ malformed_stop stop_record_lat_north = true
  /\ malformed_stop stop_record_without_lat = true.
Proof.
  split; [|split; [|split; [|split; [|split]]]].
  - intros items Hd Hbad.
    apply existsb_exists in Hbad as [item [Hin Hbad]].
    apply malformed_stop_fails in Hbad.
    destruct (map_result_fails Stop.model_validate items item _ Hin Hbad)
      as [e He].
    destruct (StopResponse.model_validate (PDict d)) as [resp|e'] eqn:E.
    + apply StopResponse_ok in E as [d' [items' [[= <-] [Hd' Hall]]]].
      rewrite Hd in Hd'. injection Hd' as <-.
      apply map_result_ok in Hall. congruence.
    + f_equal. eapply StopResponse_only; eassumption.
  - intros items Hd Hgood.
    destruct (well_formed_stops_validate items Hgood) as [l Hl].
    exists (StopResponse.mk l). cbn. unfold Pydantic.field.
    rewrite Hd. cbn. now rewrite Hl.
  - intros resp E.
    apply StopResponse_ok in E as [d' [items [[= <-] [Hd Hall]]]].
    exists items. split; [assumption|].
    eapply Forall2_impl; [|exact Hall]. intros item s. apply Stop_ok.
  - apply not_numeric_uncoercible.
  - pose proof (proj2 (not_numeric_uncoercible "north") eq_refl) as Hnorth.
    cbn in Hnorth |- *.
    destruct (str_as_float "north"); [discriminate Hnorth | reflexivity].
  - reflexivity.
Qed.

(** The Britomart record with the word north for its [stop_lat], and the
    record without its [stop_lat]. *)
Lemma malformed_stop_fails_whole_response_witness :
  existsb (malformed_stop (H := no_numeric_strings)) [stop_record_lat_north]
  = true
  /\ StopResponse.model_validate (H := no_numeric_strings)
       (PDict [ ("data", PList [stop_record_lat_north]) ])
     = Raise ValidationError
  /\ existsb (malformed_stop (H := no_numeric_strings)) [stop_record_without_lat]
     = true
  /\ StopResponse.model_validate (H := no_numeric_strings)
       (PDict [ ("data", PList [stop_record_without_lat]) ])
     = Raise ValidationError.
Proof.
  split; [reflexivity|]. split; [|split; [reflexivity|]].
  - exact (proj1 (malformed_stop_fails_whole_response (H := no_numeric_strings)
                    [ ("data", PList [stop_record_lat_north]) ])
             [stop_record_lat_north] eq_refl eq_refl).
  - exact (proj1 (malformed_stop_fails_whole_response (H := no_numeric_strings)
                    [ ("data", PList [stop_record_without_lat]) ])
             [stop_record_without_lat] eq_refl eq_refl).
Defined.

(** C6.  On a non-empty argument each operation makes exactly one call and
    reads nothing back from a second one.  When the transport fails the
    operation raises [RequestError]; when the body is JSON that fails
    validation it raises [ValidationError]; when the body is no JSON it raises
    the parse failure [JSONDecodeError].  The outcome is a function of the
    body alone: the status code of the response is never looked at. *)
Theorem upstream_failures_propagate `{LaxStrings} (self : ATService.t) (w : world) :
  (forall name : string,
      name <> "" ->
      let req := search_stop_request self w in
      let run := ATService.search_stop self (Some name) w in
      calls (snd run) = (calls w ++ [req])%list
      /\ (upstream w req = ConnectionFailed -> fst run = Raise RequestError)
      /\ (forall status body e,
             upstream w req = Response status (Some body) ->
             StopResponse.model_validate body = Raise e ->
             fst run = Raise ValidationError)
      /\ (forall status,
             upstream w req = Response status None ->
             fst run = Raise JSONDecodeError)
      /\ (forall status body,
             upstream w req = Response status body ->
             fst run
             = match body with
               | None => Raise JSONDecodeError
               | Some j =>
                   rbind (StopResponse.model_validate j)
                     (fun resp =>
                        Ok (StopResponse.mk
                              (filter (ATService.name_matches (PyStr.strip name))
                                 (StopResponse.data resp))))
               end))
  /\ (forall stop_id : string,
         stop_id <> "" ->
         let req := stop_trips_request self stop_id w in
         let run := ATService.get_stop_trips_by_stop_id self (Some stop_id) w in
         calls (snd run) = (calls w ++ [req])%list
         /\ (upstream w req = ConnectionFailed -> fst run = Raise RequestError)
         /\ (forall status body e,
                upstream w req = Response status (Some body) ->
                StopTripResponse.model_validate body = Raise e ->
                fst run = Raise ValidationError)
         /\ (forall status,
                upstream w req = Response status None ->
                fst run = Raise JSONDecodeError)
         /\ (forall status body,
                upstream w req = Response status body ->
                fst run
                = match body with
                  | None => Raise JSONDecodeError
                  | Some j => StopTripResponse.model_validate j
                  end)).
Proof.
  split.
  - intros name Hne req run. unfold run, req.
    rewrite search_stop_run by assumption. cbn [fst snd].
    split; [reflexivity|]. split; [|split; [|split]].
    + now intros ->.
    + intros status body e -> Hval. cbn [received].
      rewrite Hval. cbn. f_equal. eapply StopResponse_only; eassumption.
    + now intros status ->.
    + intros status [j|] ->; reflexivity.
  - intros stop_id Hne req run. unfold run, req.
    rewrite get_stop_trips_run by assumption. cbn [fst snd].
    split; [reflexivity|]. split; [|split; [|split]].
    + now intros ->.
    + intros status body e -> Hval. cbn [received].
      rewrite Hval. f_equal. eapply StopTripResponse_only; eassumption.
    + now intros status ->.
    + intros status [j|] ->; reflexivity.
Qed.

(** A 503 whose body is no JSON, and a transport failure. *)
Lemma upstream_failures_propagate_witness :
  "britomart" <> ""
  /\ fst (ATService.search_stop (H := no_numeric_strings) example_service
            (Some "britomart") (world_answering (Response 503 None)))
     = Raise JSONDecodeError
  /\ fst (ATService.get_stop_trips_by_stop_id (H := no_numeric_strings)
            example_service (Some "100-1") (world_answering ConnectionFailed))
     = Raise RequestError.
Proof.
  split; [discriminate|]. split.
  - exact (proj1 (proj2 (proj2 (proj2
             (proj1 (upstream_failures_propagate (H := no_numeric_strings)
                       example_service (world_answering (Response 503 None)))
                "britomart" ltac:(discriminate)))))
             503%Z eq_refl).
  - exact (proj1 (proj2
             (proj2 (upstream_failures_propagate (H := no_numeric_strings)
                       example_service (world_answering ConnectionFailed))
                "100-1" ltac:(discriminate)))
             eq_refl).
Defined.


(** C7, as stated, fails when the unpadded query is empty: the empty name
    returns no stop and makes no call, while the same name padded to one space
    passes the guard and returns every stop. *)
Lemma padding_the_empty_name_differs :
  PyStr.all_space " " = true
  /\ fst (ATService.search_stop (H := no_numeric_strings) example_service
            (Some (" " ++ "" ++ ""))
            (world_answering (Response 200 (Some britomart_payload))))
     = Ok (StopResponse.mk [britomart_stop])
  /\ fst (ATService.search_stop (H := no_numeric_strings) example_service
            (Some "")
            (world_answering (Response 200 (Some britomart_payload))))
     = Ok (StopResponse.mk []).
Proof.
  repeat split.
Qed.

(** C7, amended.  For a non-empty name, padding it with whitespace on either
    side changes nothing: the same call is made and the same records come
    back, so the name Queen with two spaces before and one after gives what
    Queen gives.  Stop names are matched and returned as stored: a stop named
    Queen St with spaces around it is returned with those spaces. *)
Theorem search_stop_ignores_padding `{LaxStrings} (self : ATService.t) (w : world) :
  (forall p name q : string,
      PyStr.all_space p = true -> PyStr.all_space q = true -> name <> "" ->
      ATService.search_stop self (Some (p ++ name ++ q)) w
      = ATService.search_stop self (Some name) w)
  /\ ATService.search_stop self (Some "  Queen ") w
     = ATService.search_stop self (Some "Queen") w
  /\ (forall status : Z,
         upstream w (search_stop_request self w)
         = Response status
             (Some (PDict [ ("data", PList [ stop_record "stop" "  Queen St "
                                               (PInt 1) ]) ])) ->
         fst (ATService.search_stop self (Some "  Queen ") w)
         = Ok (StopResponse.mk [stop_value "stop" "  Queen St "])).
Proof.
  assert (Hpad : forall p name q : string,
             PyStr.all_space p = true -> PyStr.all_space q = true -> name <> "" ->
             ATService.search_stop self (Some (p ++ name ++ q)) w
             = ATService.search_stop self (Some name) w).
  { intros p name q Hp Hq Hne.
    assert (Hne' : p ++ name ++ q <> "").
    { intros E. apply append_eq_empty in E as [_ E].
      apply append_eq_empty in E as [E _]. contradiction. }
    rewrite !search_stop_run by assumption.
    now rewrite strip_padding. }
  split; [exact Hpad|]. split.
  - apply (Hpad "  " "Queen" " "); [reflexivity | reflexivity | discriminate].
  - intros status Hup. rewrite search_stop_run by discriminate.
    now rewrite Hup.
Qed.

Lemma search_stop_ignores_padding_witness :
  PyStr.all_space "  " = true /\ PyStr.all_space " " = true /\ "Queen" <> ""
  /\ ATService.search_stop (H := no_numeric_strings) example_service
       (Some ("  " ++ "Queen" ++ " "))
       (world_answering (Response 200 (Some britomart_payload)))
     = ATService.search_stop (H := no_numeric_strings) example_service
         (Some "Queen")
         (world_answering (Response 200 (Some britomart_payload))).
Proof.
  split; [reflexivity|]. split; [reflexivity|]. split; [discriminate|].
  exact (proj1 (search_stop_ignores_padding (H := no_numeric_strings)
                  example_service
                  (world_answering (Response 200 (Some britomart_payload))))
           "  " "Queen" " " eq_refl eq_refl ltac:(discriminate)).
Defined.






(** C9.  A name that is not empty but is all whitespace passes the guard: the
    call is made, the trimmed query is the empty string, which every stop name
    contains, and the result is the whole validated upstream list. *)
Theorem search_stop_blank_name `{LaxStrings} (self : ATService.t) (name : string)
    (w : world) (status : Z) (body : pyval) (resp : StopResponse.t) :
  name <> "" ->
  PyStr.all_space name = true ->
  upstream w (search_stop_request self w) = Response status (Some body) ->
  StopResponse.model_validate body = Ok resp ->
  PyStr.strip name = ""
  /\ (forall stop, ATService.name_matches (PyStr.strip name) stop = true)
  /\ ATService.search_stop self (Some name) w
     = (Ok resp, after_call w 1 (search_stop_request self w))
  /\ calls (snd (ATService.search_stop self (Some name) w))
     = (calls w ++ [search_stop_request self w])%list.
Proof.
  intros Hne Hsp Hup Hval.
  assert (Hstrip : PyStr.strip name = "") by now apply strip_all_space.
  assert (Hall : forall stop, ATService.name_matches (PyStr.strip name) stop = true).
  { intros stop. rewrite Hstrip. apply contains_empty. }
  rewrite search_stop_run by assumption. rewrite Hup. cbn [received rbind snd].
  rewrite Hval. cbn [rbind].
  repeat split; try assumption.
  f_equal. destruct resp as [l]. cbn. do 2 f_equal.
  clear -Hall. induction l as [|s l IH]; cbn; [reflexivity|].
  now rewrite Hall, IH.
Qed.

Lemma search_stop_blank_name_witness :
  " " <> "" /\ PyStr.all_space " " = true
  /\ ATService.search_stop (H := no_numeric_strings) example_service (Some " ")
       (world_answering (Response 200 (Some britomart_payload)))
     = (Ok (StopResponse.mk [britomart_stop]),
        after_call (world_answering (Response 200 (Some britomart_payload))) 1
          (search_stop_request example_service
             (world_answering (Response 200 (Some britomart_payload))))).
Proof.
  split; [discriminate|]. split; [reflexivity|].
  exact (proj1 (proj2 (proj2
           (search_stop_blank_name (H := no_numeric_strings) example_service " "
              (world_answering (Response 200 (Some britomart_payload)))
              200%Z britomart_payload (StopResponse.mk [britomart_stop])
              ltac:(discriminate) eq_refl eq_refl eq_refl)))).
Defined.

(** C10.  The [type] of an envelope is validated as a string and nothing
    more: whatever string it is, a stop or a stop trip whose other fields
    validate is accepted with that string as its type.  A record of type bus
    comes back from [search_stop] and from [get_stop_trips_by_stop_id]. *)
Theorem type_tag_is_any_string `{LaxStrings} (self : ATService.t) (w : world) :
  (forall (e : dict) (tag i : string) (r : StopAttributes.t),
      dict_get "type" e = Some (PStr tag) ->
      dict_get "id" e = Some (PStr i) ->
      Pydantic.field e "attributes" StopAttributes.model_validate = Ok r ->
      Stop.model_validate (PDict e) = Ok (Stop.mk tag i r))
  /\ (forall (e : dict) (tag i : string) (r : StopTripAttributes.t),
         dict_get "type" e = Some (PStr tag) ->
         dict_get "id" e = Some (PStr i) ->
         Pydantic.field e "attributes" StopTripAttributes.model_validate = Ok r ->
         StopTrip.model_validate (PDict e) = Ok (StopTrip.mk tag i r))
  /\ (forall status : Z,
         upstream w (search_stop_request self w)
         = Response status
             (Some (PDict [ ("data", PList [ stop_record "bus"
                                               "Britomart Train Station"
                                               (PInt 1) ]) ])) ->
         fst (ATService.search_stop self (Some "britomart") w)
         = Ok (StopResponse.mk [stop_value "bus" "Britomart Train Station"]))
  /\ (forall (stop_id : string) (status : Z),
         stop_id <> "" ->
         upstream w (stop_trips_request self stop_id w)
         = Response status (Some (PDict [ ("data", PList [trip_record "bus"]) ])) ->
         fst (ATService.get_stop_trips_by_stop_id self (Some stop_id) w)
         = Ok (StopTripResponse.mk [trip_value "bus"])).
Proof.
  split; [|split; [|split]].
  - intros e tag i r Ht Hi Ha. cbn [Stop.model_validate].
    unfold Pydantic.field at 1 2. now rewrite Ht, Hi, Ha.
  - intros e tag i r Ht Hi Ha. cbn [StopTrip.model_validate].
    unfold Pydantic.field at 1 2. now rewrite Ht, Hi, Ha.
  - intros status Hup. rewrite search_stop_run by discriminate.
    now rewrite Hup.
  - intros stop_id status Hne Hup. rewrite get_stop_trips_run by assumption.
    now rewrite Hup.
Qed.

Lemma type_tag_is_any_string_witness :
  "100-1" <> ""
  /\ fst (ATService.get_stop_trips_by_stop_id (H := no_numeric_strings)
            example_service (Some "100-1")
            (world_answering
               (Response 200 (Some (PDict [ ("data", PList [trip_record "bus"]) ])))))
     = Ok (StopTripResponse.mk [trip_value "bus"]).
Proof.
  split; [discriminate|].
  exact (proj2 (proj2 (proj2
           (type_tag_is_any_string (H := no_numeric_strings) example_service
              (world_answering
                 (Response 200 (Some (PDict [ ("data", PList [trip_record "bus"]) ])))))))
           "100-1" 200%Z ltac:(discriminate) eq_refl).
Defined.


(** * Further properties of the client *)

(** ** More on strings *)

Section MoreStringFacts.

Lemma is_space_lower_char (c : ascii) :
  PyStr.is_space (PyStr.lower_char c) = PyStr.is_space c.
Proof.
  destruct c as [[] [] [] [] [] [] [] []]; reflexivity.
Qed.

Lemma lower_append (a b : string) :
  PyStr.lower (a ++ b) = PyStr.lower a ++ PyStr.lower b.
Proof.
  induction a as [|c a IH]; simpl; [reflexivity | now rewrite IH].
Qed.

Lemma lower_eq_empty (s : string) : PyStr.lower s = "" -> s = "".
Proof.
  destruct s; simpl; [reflexivity | discriminate].
Qed.

Lemma lstrip_lower (s : string) :
  PyStr.lstrip (PyStr.lower s) = PyStr.lower (PyStr.lstrip s).
Proof.
  induction s as [|c s IH]; simpl; [reflexivity|].
  rewrite is_space_lower_char. now destruct (PyStr.is_space c).
Qed.

Lemma rstrip_lower (s : string) :
  PyStr.rstrip (PyStr.lower s) = PyStr.lower (PyStr.rstrip s).
Proof.
  induction s as [|c s IH]; simpl; [reflexivity|].
  rewrite IH, is_space_lower_char.
  destruct (PyStr.rstrip s); simpl; [|reflexivity].
  now destruct (PyStr.is_space c).
Qed.

(** Trimming and lower-casing commute. *)
Lemma strip_lower (s : string) :
  PyStr.strip (PyStr.lower s) = PyStr.lower (PyStr.strip s).
Proof.
  unfold PyStr.strip. now rewrite lstrip_lower, rstrip_lower.
Qed.

Lemma lstrip_suffix (s : string) : exists pre, s = pre ++ PyStr.lstrip s.
Proof.
  induction s as [|c s [pre IH]]; simpl.
  - now exists "".
  - destruct (PyStr.is_space c).
    + exists (String c pre). simpl. now rewrite <- IH.
    + now exists "".
Qed.

Lemma rstrip_prefix (s : string) : exists post, s = PyStr.rstrip s ++ post.
Proof.
  induction s as [|c s [post IH]]; simpl.
  - now exists "".
  - destruct (PyStr.rstrip s) eqn:E.
    + destruct (PyStr.is_space c).
      * now exists (String c s).
      * exists post. simpl. now rewrite IH at 1.
    + exists post. simpl. now rewrite IH at 1.
Qed.

(** The trimmed string sits inside the string it was trimmed from. *)
Lemma strip_inside (s : string) : exists pre post, s = pre ++ PyStr.strip s ++ post.
Proof.
  destruct (lstrip_suffix s) as [pre Hpre].
  destruct (rstrip_prefix (PyStr.lstrip s)) as [post Hpost].
  exists pre, post. unfold PyStr.strip. now rewrite <- Hpost.
Qed.

Lemma contains_trans (a b h : string) :
  PyStr.contains a b = true -> PyStr.contains b h = true ->
  PyStr.contains a h = true.
Proof.
  rewrite !contains_spec. intros [p1 [q1 ->]] [p2 [q2 ->]].
  exists (p2 ++ p1), (q1 ++ q2). now rewrite !append_assoc.
Qed.

End MoreStringFacts.

(** ** Searching *)

(** X1.  The name is trimmed and lower-cased before it is compared, so two
    non-empty names that differ only in letter case give the same run: the
    same call and the same records. *)
Theorem search_stop_ignores_case `{LaxStrings} (self : ATService.t)
    (name name' : string) (w : world) :
  name <> "" ->
  PyStr.lower name = PyStr.lower name' ->
  ATService.search_stop self (Some name) w
  = ATService.search_stop self (Some name') w.
Proof.
  intros Hne Hcase.
  assert (Hne' : name' <> "").
  { intros ->. apply Hne, lower_eq_empty. now rewrite Hcase. }
  assert (Hq : PyStr.lower (PyStr.strip name) = PyStr.lower (PyStr.strip name'))
    by now rewrite <- !strip_lower, Hcase.
  rewrite !search_stop_run by assumption. f_equal.
  destruct (received StopResponse.model_validate
              (upstream w (search_stop_request self w))) as [resp|e];
    [|reflexivity].
  cbn [rbind]. do 2 f_equal. apply filter_ext. intros s.
  unfold ATService.name_matches. now rewrite Hq.
Qed.

Lemma search_stop_ignores_case_witness :
  "BritoMART" <> "" /\ PyStr.lower "BritoMART" = PyStr.lower "britomart"
  /\ ATService.search_stop (H := no_numeric_strings) example_service
       (Some "BritoMART")
       (world_answering (Response 200 (Some britomart_payload)))
     = ATService.search_stop (H := no_numeric_strings) example_service
         (Some "britomart")
         (world_answering (Response 200 (Some britomart_payload))).
Proof.
  split; [discriminate|]. split; [reflexivity|].
  exact (search_stop_ignores_case (H := no_numeric_strings) example_service
           "BritoMART" "britomart"
           (world_answering (Response 200 (Some britomart_payload)))
           ltac:(discriminate) eq_refl).
Defined.

(** X2.  A query that contains another query narrows its result: when the
    normalised form of [name] occurs inside the normalised form of [longer],
    what [longer] returns is what the same filter keeps of the result for
    [name]. *)
Theorem search_stop_narrows `{LaxStrings} (self : ATService.t)
    (name longer : string) (w w1 w2 : world) (r1 r2 : StopResponse.t) :
  name <> "" -> longer <> "" ->
  PyStr.contains (PyStr.lower (PyStr.strip name))
    (PyStr.lower (PyStr.strip longer)) = true ->
  ATService.search_stop self (Some name) w = (Ok r1, w1) ->
  ATService.search_stop self (Some longer) w = (Ok r2, w2) ->
  StopResponse.data r2
  = filter (ATService.name_matches (PyStr.strip longer)) (StopResponse.data r1)
  /\ (forall s, In s (StopResponse.data r2) -> In s (StopResponse.data r1)).
Proof.
  intros Hne Hne' Hsub H1 H2.
  rewrite search_stop_run in H1, H2 by assumption.
  destruct (received StopResponse.model_validate
              (upstream w (search_stop_request self w))) as [resp|e];
    cbn [rbind] in H1, H2; [|discriminate].
  injection H1 as <- _. injection H2 as <- _. cbn [StopResponse.data].
  assert (Himp : forall s,
             ATService.name_matches (PyStr.strip longer) s = true ->
             ATService.name_matches (PyStr.strip name) s = true).
  { intros s. unfold ATService.name_matches. now apply contains_trans. }
  assert (Hfilter :
            filter (ATService.name_matches (PyStr.strip longer))
              (StopResponse.data resp)
            = filter (ATService.name_matches (PyStr.strip longer))
                (filter (ATService.name_matches (PyStr.strip name))
                   (StopResponse.data resp))).
  { induction (StopResponse.data resp) as [|s l IH]; cbn; [reflexivity|].
    destruct (ATService.name_matches (PyStr.strip longer) s) eqn:E2.
    - rewrite (Himp s E2). cbn. rewrite E2. now f_equal.
    - destruct (ATService.name_matches (PyStr.strip name) s); cbn;
        [rewrite E2|]; exact IH. }
  split; [exact Hfilter|].
  intros s Hin. rewrite Hfilter in Hin. now apply filter_In in Hin.
Qed.

Lemma search_stop_narrows_witness :
  "Brito" <> "" /\ " britomart train " <> ""
  /\ StopResponse.data (StopResponse.mk [britomart_stop])
     = filter (ATService.name_matches (PyStr.strip " britomart train "))
         (StopResponse.data (StopResponse.mk [britomart_stop])).
Proof.
  split; [discriminate|]. split; [discriminate|].
  exact (proj1 (search_stop_narrows (H := no_numeric_strings) example_service
                  "Brito" " britomart train "
                  (world_answering (Response 200 (Some britomart_payload)))
                  _ _ (StopResponse.mk [britomart_stop])
                  (StopResponse.mk [britomart_stop])
                  ltac:(discriminate) ltac:(discriminate) eq_refl eq_refl eq_refl)).
Defined.

(** X3.  Every stop of the upstream list whose name is not empty is found by
    its own name, as stored: surrounding whitespace and letter case of the
    stored name do not get in the way. *)
Theorem search_stop_finds_own_name `{LaxStrings} (self : ATService.t) (w : world)
    (status : Z) (body : pyval) (resp : StopResponse.t) (s : Stop.t) :
  upstream w (search_stop_request self w) = Response status (Some body) ->
  StopResponse.model_validate body = Ok resp ->
  In s (StopResponse.data resp) ->
  StopAttributes.stop_name (Stop.attributes s) <> "" ->
  exists found,
    fst (ATService.search_stop self
           (Some (StopAttributes.stop_name (Stop.attributes s))) w) = Ok found
    /\ In s (StopResponse.data found).
Proof.
  intros Hup Hval Hin Hne.
  rewrite search_stop_run by assumption. rewrite Hup. cbn [received].
  rewrite Hval. cbn [rbind fst]. eexists. split; [reflexivity|].
  cbn [StopResponse.data]. apply filter_In. split; [assumption|].
  unfold ATService.name_matches. apply contains_spec.
  destruct (strip_inside (StopAttributes.stop_name (Stop.attributes s)))
    as [pre [post E]].
  exists (PyStr.lower pre), (PyStr.lower post).
  rewrite <- !lower_append. now rewrite <- E.
Qed.

Lemma search_stop_finds_own_name_witness :
  In (stop_value "stop" "  Queen St ") [stop_value "stop" "  Queen St "]
  /\ "  Queen St " <> ""
  /\ exists found,
       fst (ATService.search_stop (H := no_numeric_strings) example_service
              (Some "  Queen St ")
              (world_answering
                 (Response 200
                    (Some (PDict [ ("data", PList [ stop_record "stop" "  Queen St "
                                                      (PInt 1) ]) ])))))
       = Ok found
       /\ In (stop_value "stop" "  Queen St ") (StopResponse.data found).
Proof.
  split; [now left|]. split; [discriminate|].
  exact (search_stop_finds_own_name (H := no_numeric_strings) example_service
           (world_answering
              (Response 200
                 (Some (PDict [ ("data", PList [ stop_record "stop" "  Queen St "
                                                   (PInt 1) ]) ]))))
           200%Z _ (StopResponse.mk [stop_value "stop" "  Queen St "])
           (stop_value "stop" "  Queen St ")
           eq_refl eq_refl (or_introl eq_refl) ltac:(discriminate)).
Defined.

(** X4.  The name is never sent upstream: for any two non-empty names the
    call that is made, and the whole world after the run, are the same.  The
    filtering happens on the client. *)
Theorem search_stop_call_independent_of_name `{LaxStrings} (self : ATService.t)
    (name name' : string) (w : world) :
  name <> "" -> name' <> "" ->
  snd (ATService.search_stop self (Some name) w)
  = snd (ATService.search_stop self (Some name') w)
  /\ calls (snd (ATService.search_stop self (Some name) w))
     = (calls w ++ [search_stop_request self w])%list.
Proof.
  intros Hne Hne'. now rewrite !search_stop_run by assumption.
Qed.

Lemma search_stop_call_independent_of_name_witness :
  "britomart" <> "" /\ "queen street" <> ""
  /\ snd (ATService.search_stop (H := no_numeric_strings) example_service
            (Some "britomart")
            (world_answering (Response 200 (Some britomart_payload))))
     = snd (ATService.search_stop (H := no_numeric_strings) example_service
              (Some "queen street")
              (world_answering (Response 200 (Some britomart_payload)))).
Proof.
  split; [discriminate|]. split; [discriminate|].
  exact (proj1 (search_stop_call_independent_of_name (H := no_numeric_strings)
                  example_service "britomart" "queen street"
                  (world_answering (Response 200 (Some britomart_payload)))
                  ltac:(discriminate) ltac:(discriminate))).
Defined.


(** ** What every run keeps *)

(** X5.  Whatever the argument (absent, empty or not), [search_stop] adds at
    most one call to the log and reads the clock at most once, and
    [get_stop_trips_by_stop_id] adds at most one call and reads the clock at
    most twice; the calls logged before stay in place, and neither the clock
    nor the upstream is replaced. *)
Theorem operations_extend_the_log `{LaxStrings} (self : ATService.t)
    (arg : option string) (w : world) :
  let w1 := snd (ATService.search_stop self arg w) in
  let w2 := snd (ATService.get_stop_trips_by_stop_id self arg w) in
  (extends_by 1 (calls w) (calls w1)
   /\ (ticks w <= ticks w1 <= 1 + ticks w)%nat
   /\ clock w1 = clock w /\ upstream w1 = upstream w)
  /\ (extends_by 1 (calls w) (calls w2)
      /\ (ticks w <= ticks w2 <= 2 + ticks w)%nat
      /\ clock w2 = clock w /\ upstream w2 = upstream w).
Proof.
  assert (Hnone : extends_by 1 (calls w) (calls w)).
  { exists []. split; [now rewrite app_nil_r | simpl; lia]. }
  assert (Hone : forall r, extends_by 1 (calls w) (calls w ++ [r])).
  { intros r. exists [r]. split; [reflexivity | simpl; lia]. }
  destruct arg as [s|]; [destruct (string_dec s "") as [->|Hne]|].
  - cbn. repeat split; try assumption; lia.
  - cbn zeta. rewrite search_stop_run, get_stop_trips_run by assumption.
    cbn. repeat split; try apply Hone; lia.
  - cbn. repeat split; try assumption; lia.
Qed.

(** ** Failures of the upstream list *)

Lemma failing_record_fails_response `{LaxStrings} (d : dict)
    (items : list pyval) (item : pyval) (e : exn) :
  dict_get "data" d = Some (PList items) ->
  In item items -> Stop.model_validate item = Raise e ->
  StopResponse.model_validate (PDict d) = Raise ValidationError.
Proof.
  intros Hd Hin Hbad.
  destruct (map_result_fails Stop.model_validate items item _ Hin Hbad) as [e' He].
  cbn. unfold Pydantic.field. rewrite Hd. cbn. rewrite He. cbn.
  f_equal. apply map_result_raise in He as [bad [_ Hraise]].
  eapply Stop_only; eassumption.
Qed.

(** X6.  One record of the upstream list that does not validate, for
    whatever reason (no object, a field missing, a value that cannot be
    converted to the declared type), makes every search fail with a
    [ValidationError], whatever the name and however many records that do
    validate would have matched: no partial result is returned. *)
Theorem search_stop_fails_on_one_bad_record `{LaxStrings} (self : ATService.t)
    (name : string) (w : world) (status : Z) (d : dict) (items : list pyval) :
  name <> "" ->
  upstream w (search_stop_request self w) = Response status (Some (PDict d)) ->
  dict_get "data" d = Some (PList items) ->
  (forall (item : pyval) (e : exn),
      In item items -> Stop.model_validate item = Raise e ->
      fst (ATService.search_stop self (Some name) w) = Raise ValidationError)
  /\ (existsb malformed_stop items = true ->
      fst (ATService.search_stop self (Some name) w) = Raise ValidationError).
Proof.
  intros Hne Hup Hd.
  assert (Hfail : forall (item : pyval) (e : exn),
             In item items -> Stop.model_validate item = Raise e ->
             fst (ATService.search_stop self (Some name) w)
             = Raise ValidationError).
  { intros item e Hin Hbad. rewrite search_stop_run by assumption.
    rewrite Hup. cbn [received fst].
    now rewrite (failing_record_fails_response d items item e Hd Hin Hbad). }
  split; [exact Hfail|].
  intros Hbad. apply existsb_exists in Hbad as [item [Hin Hbad]].
  apply (Hfail item ValidationError Hin). now apply malformed_stop_fails.
Qed.

Lemma search_stop_fails_on_one_bad_record_witness :
  "britomart" <> ""
  /\ In stop_record_lat_north
       [ stop_record "stop" "Britomart Train Station" (PInt 1);
         stop_record_lat_north ]
  /\ Stop.model_validate (H := no_numeric_strings) stop_record_lat_north
     = Raise ValidationError
  /\ fst (ATService.search_stop (H := no_numeric_strings) example_service
            (Some "britomart")
            (world_answering
               (Response 200
                  (Some (PDict [ ("data",
                                  PList [ stop_record "stop" "Britomart Train Station"
                                            (PInt 1);
                                          stop_record_lat_north ]) ])))))
     = Raise ValidationError.
Proof.
  split; [discriminate|]. split; [right; left; reflexivity|].
  split; [reflexivity|].
  exact (proj1 (search_stop_fails_on_one_bad_record (H := no_numeric_strings)
                  example_service "britomart"
                  (world_answering
                     (Response 200
                        (Some (PDict [ ("data",
                                        PList [ stop_record "stop"
                                                  "Britomart Train Station" (PInt 1);
                                                stop_record_lat_north ]) ]))))
                  200%Z _ _
                  ltac:(discriminate) eq_refl eq_refl)
           stop_record_lat_north ValidationError
           (or_intror (or_introl eq_refl)) eq_refl).
Defined.

(** X7.  A body that is JSON but is not an object with a list under [data]
    (an error object, a bare list, null) makes both operations fail with a
    [ValidationError]; an upstream error report is never returned as data. *)
Theorem operations_reject_bodies_without_data `{LaxStrings} (self : ATService.t)
    (arg : string) (w : world) (body : pyval) :
  arg <> "" ->
  has_data_list body = false ->
  (forall status,
      upstream w (search_stop_request self w) = Response status (Some body) ->
      fst (ATService.search_stop self (Some arg) w) = Raise ValidationError)
  /\ (forall status,
         upstream w (stop_trips_request self arg w) = Response status (Some body) ->
         fst (ATService.get_stop_trips_by_stop_id self (Some arg) w)
         = Raise ValidationError).
Proof.
  intros Hne Hbody.
  assert (H1 : StopResponse.model_validate body = Raise ValidationError).
  { destruct body as [| | | | | |d]; try reflexivity.
    cbn in *. unfold Pydantic.field.
    destruct (dict_get "data" d) as [[]|]; try reflexivity; discriminate. }
  assert (H2 : StopTripResponse.model_validate body = Raise ValidationError).
  { destruct body as [| | | | | |d]; try reflexivity.
    cbn in *. unfold Pydantic.field.
    destruct (dict_get "data" d) as [[]|]; try reflexivity; discriminate. }
  split; intros status Hup.
  - rewrite search_stop_run by assumption. rewrite Hup. cbn [received fst].
    now rewrite H1.
  - rewrite get_stop_trips_run by assumption. now rewrite Hup.
Qed.

Lemma operations_reject_bodies_without_data_witness :
  "100-1" <> ""
  /\ has_data_list (PDict [ ("statusCode", PInt 401);
                            ("message", PStr "Access denied") ]) = false
  /\ fst (ATService.get_stop_trips_by_stop_id (H := no_numeric_strings)
            example_service (Some "100-1")
            (world_answering
               (Response 401 (Some (PDict [ ("statusCode", PInt 401);
                                            ("message", PStr "Access denied") ])))))
     = Raise ValidationError.
Proof.
  split; [discriminate|]. split; [reflexivity|].
  exact (proj2 (operations_reject_bodies_without_data (H := no_numeric_strings)
                  example_service "100-1"
                  (world_answering
                     (Response 401 (Some (PDict [ ("statusCode", PInt 401);
                                                  ("message", PStr "Access denied") ]))))
                  (PDict [ ("statusCode", PInt 401);
                           ("message", PStr "Access denied") ])
                  ltac:(discriminate) eq_refl)
           401%Z eq_refl).
Defined.

(** ** Stop ids *)

(** X8.  For a non-empty stop id, whitespace around it changes nothing: the
    same call is made and the same result comes back. *)
Theorem get_stop_trips_ignores_padding `{LaxStrings} (self : ATService.t)
    (p stop_id q : string) (w : world) :
  PyStr.all_space p = true -> PyStr.all_space q = true -> stop_id <> "" ->
  ATService.get_stop_trips_by_stop_id self (Some (p ++ stop_id ++ q)) w
  = ATService.get_stop_trips_by_stop_id self (Some stop_id) w.
Proof.
  intros Hp Hq Hne.
  assert (Hne' : p ++ stop_id ++ q <> "").
  { intros E. apply append_eq_empty in E as [_ E].
    apply append_eq_empty in E as [E _]. contradiction. }
  rewrite !get_stop_trips_run by assumption.
  unfold stop_trips_request. now rewrite strip_padding.
Qed.

Lemma get_stop_trips_ignores_padding_witness :
  PyStr.all_space " " = true /\ "100-1" <> ""
  /\ ATService.get_stop_trips_by_stop_id (H := no_numeric_strings)
       example_service (Some (" " ++ "100-1" ++ " "))
       (world_answering ConnectionFailed)
     = ATService.get_stop_trips_by_stop_id (H := no_numeric_strings)
         example_service (Some "100-1") (world_answering ConnectionFailed).
Proof.
  split; [reflexivity|]. split; [discriminate|].
  exact (get_stop_trips_ignores_padding (H := no_numeric_strings)
           example_service " " "100-1" " " (world_answering ConnectionFailed)
           eq_refl eq_refl ltac:(discriminate)).
Defined.

(** X9.  A stop id that is not empty but is all whitespace passes the guard
    and is trimmed to nothing: the call goes out with an empty path segment,
    /stops//stoptrips. *)
Theorem get_stop_trips_blank_stop_id `{LaxStrings} (self : ATService.t)
    (stop_id : string) (w : world) :
  stop_id <> "" ->
  PyStr.all_space stop_id = true ->
  let today := clock w (ticks w) in
  let now := clock w (S (ticks w)) in
  calls (snd (ATService.get_stop_trips_by_stop_id self (Some stop_id) w))
  = (calls w
     ++ [ {| req_method := "GET";
             req_url := PyStr.format_value (ATService.base_url self)
                        ++ "/stops//stoptrips?filter[date]="
                        ++ PyTime.pad4 (year today) ++ "-"
                        ++ PyTime.pad2 (month today) ++ "-"
                        ++ PyTime.pad2 (day today)
                        ++ "&filter[start_hour]=" ++ PyTime.pad2 (hour now);
             req_headers := ATService.headers self |} ])%list.
Proof.
  intros Hne Hsp today now. rewrite get_stop_trips_run by assumption.
  unfold stop_trips_request. now rewrite strip_all_space.
Qed.

Lemma get_stop_trips_blank_stop_id_witness :
  "  " <> "" /\ PyStr.all_space "  " = true
  /\ calls (snd (ATService.get_stop_trips_by_stop_id (H := no_numeric_strings)
                   example_service (Some "  ") (world_answering ConnectionFailed)))
     = [ {| req_method := "GET";
            req_url := "https://transit.example/v3/stops//stoptrips?filter[date]=2026-11-03&filter[start_hour]=10";
            req_headers := ATService.headers example_service |} ].
Proof.
  split; [discriminate|]. split; [reflexivity|].
  exact (get_stop_trips_blank_stop_id (H := no_numeric_strings) example_service
           "  " (world_answering ConnectionFailed) ltac:(discriminate) eq_refl).
Defined.


(** ** The models *)

Lemma Stop_dump_validates `{LaxStrings} (s : Stop.t) :
  Stop.model_validate (PDict (Stop.model_dump s)) = Ok s.
Proof.
  destruct s as [tag i []]. reflexivity.
Qed.

Lemma StopTrip_dump_validates `{LaxStrings} (s : StopTrip.t) :
  StopTrip.model_validate (PDict (StopTrip.model_dump s)) = Ok s.
Proof.
  destruct s as [tag i []]. reflexivity.
Qed.

(** X10.  Dumping a response and validating the dump gives the response back,
    for stops and for stop trips: every record, every field and the order
    survive, and no value of a validated record is ever refused or changed on
    the way back in. *)
Theorem dump_then_validate `{LaxStrings} (stops : StopResponse.t)
    (trips : StopTripResponse.t) :
  StopResponse.model_validate (PDict (StopResponse.model_dump stops)) = Ok stops
  /\ StopTripResponse.model_validate (PDict (StopTripResponse.model_dump trips))
     = Ok trips.
Proof.
  destruct stops as [l], trips as [l']. split.
  - cbn. unfold Pydantic.field. cbn.
    assert (E : map_result Stop.model_validate
                  (map (fun s => PDict (Stop.model_dump s)) l) = Ok l).
    { induction l as [|s l IH]; [reflexivity|].
      cbn [map map_result]. now rewrite Stop_dump_validates, IH. }
    now rewrite E.
  - cbn. unfold Pydantic.field. cbn.
    assert (E : map_result StopTrip.model_validate
                  (map (fun s => PDict (StopTrip.model_dump s)) l') = Ok l').
    { induction l' as [|s l' IH]; [reflexivity|].
      cbn [map map_result]. now rewrite StopTrip_dump_validates, IH. }
    now rewrite E.
Qed.

(** X11.  Validation of the attributes looks at the declared fields only: two
    objects that agree on them validate alike, so further keys, and the order
    of the keys, make no difference. *)
Theorem attributes_depend_on_declared_fields `{LaxStrings} (a a' : dict) :
  ((forall n ty, In (n, ty) StopAttributes_fields -> dict_get n a = dict_get n a') ->
   StopAttributes.model_validate (PDict a) = StopAttributes.model_validate (PDict a'))
  /\ ((forall n ty, In (n, ty) StopTripAttributes_fields ->
         dict_get n a = dict_get n a') ->
      StopTripAttributes.model_validate (PDict a)
      = StopTripAttributes.model_validate (PDict a')).
Proof.
  split; intros Hsame; cbn; unfold Pydantic.field;
    repeat match goal with
           | |- context [dict_get ?n a] =>
               rewrite (Hsame n _ ltac:(simpl; eauto 20))
           end;
    reflexivity.
Qed.

Lemma attributes_depend_on_declared_fields_witness :
  StopAttributes.model_validate (H := no_numeric_strings)
    (PDict (("zone", PStr "city")
            :: rev (stop_attributes "Britomart Train Station" (PInt 1))))
  = StopAttributes.model_validate (H := no_numeric_strings)
      (PDict (stop_attributes "Britomart Train Station" (PInt 1))).
Proof.
  apply (proj1 (attributes_depend_on_declared_fields (H := no_numeric_strings)
                  (("zone", PStr "city")
                   :: rev (stop_attributes "Britomart Train Station" (PInt 1)))
                  (stop_attributes "Britomart Train Station" (PInt 1)))).
  intros n ty Hin.
  repeat (destruct Hin as [[= <- <-]|Hin]; [reflexivity|]).
  contradiction.
Defined.

(** ** Configuration *)

(** X12.  A service built from the environment sends, on every call that
    either operation makes, the method GET and the three headers of
    [__init__], the subscription key being the value of AT_API_KEY (or None
    when it is not set). *)
Theorem every_call_carries_the_key `{LaxStrings} (getenv : string -> option string)
    (arg : option string) (w : world) (r : request) :
  In r (calls (snd (ATService.search_stop (ATService.init getenv) arg w)))
  \/ In r (calls (snd (ATService.get_stop_trips_by_stop_id
                        (ATService.init getenv) arg w))) ->
  In r (calls w)
  \/ (req_method r = "GET" /\ req_headers r = configured_headers getenv).
Proof.
  destruct arg as [s|]; [destruct (string_dec s "") as [->|Hne]|].
  - cbn. tauto.
  - rewrite search_stop_run, get_stop_trips_run by assumption. cbn [snd after_call calls].
    intros [Hin|Hin]; apply in_app_or in Hin as [Hin|[<-|[]]]; auto.
  - cbn. tauto.
Qed.

Lemma every_call_carries_the_key_witness :
  req_headers
    {| req_method := "GET";
       req_url := "https://transit.example/v3/stops?filter[date]=2026-11-03";
       req_headers := ATService.headers example_service |}
  = [ ("Content-Type", Some "application/json");
      ("Cache-Control", Some "no-cache");
      ("Ocp-Apim-Subscription-Key", Some "secret") ].
Proof.
  destruct (every_call_carries_the_key (H := no_numeric_strings)
              (fun k => if String.eqb k "AT_BASE_URL"
                        then Some "https://transit.example/v3"
                        else if String.eqb k "AT_API_KEY" then Some "secret"
                             else None)
              (Some "britomart") (world_answering ConnectionFailed)
              {| req_method := "GET";
                 req_url := "https://transit.example/v3/stops?filter[date]=2026-11-03";
                 req_headers := ATService.headers example_service |}
              (or_introl (or_introl eq_refl))) as [[]|[_ E]].
  exact E.
Defined.

(** X13.  When AT_BASE_URL is not set the service is built all the same and
    nothing is raised before the call: on a non-empty argument each operation
    calls a URL that starts with the word None. *)
Theorem missing_base_url_is_not_detected `{LaxStrings}
    (getenv : string -> option string) (arg : string) (w : world) :
  getenv "AT_BASE_URL" = None ->
  arg <> "" ->
  (exists path,
      calls (snd (ATService.search_stop (ATService.init getenv) (Some arg) w))
      = (calls w
         ++ [ {| req_method := "GET"; req_url := "None/stops?" ++ path;
                 req_headers := configured_headers getenv |} ])%list)
  /\ (exists path,
         calls (snd (ATService.get_stop_trips_by_stop_id (ATService.init getenv)
                       (Some arg) w))
         = (calls w
            ++ [ {| req_method := "GET"; req_url := "None/stops/" ++ path;
                    req_headers := configured_headers getenv |} ])%list).
Proof.
  intros Henv Hne.
  rewrite search_stop_run, get_stop_trips_run by assumption.
  unfold search_stop_request, stop_trips_request. cbn. rewrite Henv. cbn.
  split; eexists; reflexivity.
Qed.

Lemma missing_base_url_is_not_detected_witness :
  "100-1" <> ""
  /\ exists path,
       calls (snd (ATService.search_stop (H := no_numeric_strings)
                     (ATService.init (fun _ => None)) (Some "100-1")
                     (world_answering ConnectionFailed)))
       = [ {| req_method := "GET"; req_url := "None/stops?" ++ path;
              req_headers := configured_headers (fun _ => None) |} ].
Proof.
  split; [discriminate|].
  exact (proj1 (missing_base_url_is_not_detected (H := no_numeric_strings)
                  (fun _ => None) "100-1" (world_answering ConnectionFailed)
                  eq_refl ltac:(discriminate))).
Defined.

(** ** URLs *)

(** X14.  For a call whose keywords are pairwise different: [_get_url]
    raises [TypeError] when a keyword is named self or url, the parameters the
    call has bound already.  Otherwise it raises [KeyError] for a key that
    [URL_MAP] does not hold, and for the two keys it holds the outcome depends
    on the keywords the template names and on nothing else: further keywords
    are ignored, a missing one raises [KeyError], and the values are inserted
    as they are, after the base URL. *)
Theorem get_url_behaviour (self : ATService.t) (kwargs : list (string * string)) :
  distinct_keywords kwargs = true ->
  (ATService.binds_parameter kwargs = true ->
   forall url : string, ATService._get_url self url kwargs = Raise TypeError)
  /\ (ATService.binds_parameter kwargs = false ->
      (forall url : string,
          url <> "search_stop" -> url <> "stop_trips_by_stop_id" ->
          ATService._get_url self url kwargs = Raise KeyError)
      /\ ATService._get_url self "search_stop" kwargs
         = (journey_date <- PyFormat.kwargs_get "journey_date" kwargs ;;
            Ok (PyStr.format_value (ATService.base_url self)
                ++ "/stops?filter[date]=" ++ journey_date))%result
      /\ ATService._get_url self "stop_trips_by_stop_id" kwargs
         = (stop_id <- PyFormat.kwargs_get "stop_id" kwargs ;;
            journey_date <- PyFormat.kwargs_get "journey_date" kwargs ;;
            journey_hour <- PyFormat.kwargs_get "journey_hour" kwargs ;;
            Ok (PyStr.format_value (ATService.base_url self)
                ++ "/stops/" ++ stop_id ++ "/stoptrips?filter[date]="
                ++ journey_date ++ "&filter[start_hour]=" ++ journey_hour))%result).
Proof.
  intros _. split.
  - intros Hbound url. unfold ATService._get_url. now rewrite Hbound.
  - intros Hfree. unfold ATService._get_url. rewrite Hfree.
    split; [|split].
    + intros url H1 H2. cbn.
      apply String.eqb_neq in H1, H2. now rewrite H1, H2.
    + cbn.
      destruct (PyFormat.kwargs_get "journey_date" kwargs); cbn; [|reflexivity].
      now rewrite append_empty_r.
    + cbn.
      destruct (PyFormat.kwargs_get "stop_id" kwargs); cbn; [|reflexivity].
      destruct (PyFormat.kwargs_get "journey_date" kwargs); cbn; [|reflexivity].
      destruct (PyFormat.kwargs_get "journey_hour" kwargs); cbn; [|reflexivity].
      now rewrite append_empty_r.
Qed.

Lemma get_url_behaviour_witness :
  distinct_keywords [("zone", "city"); ("journey_date", "2026-11-03")] = true
  /\ ATService.binds_parameter [("zone", "city"); ("journey_date", "2026-11-03")]
     = false
  /\ ATService._get_url example_service "search_stop"
       [("zone", "city"); ("journey_date", "2026-11-03")]
     = Ok "https://transit.example/v3/stops?filter[date]=2026-11-03"
  /\ distinct_keywords [("url", "stops")] = true
  /\ ATService.binds_parameter [("url", "stops")] = true
  /\ ATService._get_url example_service "search_stop" [("url", "stops")]
     = Raise TypeError.
Proof.
  split; [reflexivity|]. split; [reflexivity|]. split; [|split; [|split]].
  - exact (proj1 (proj2 (proj2 (get_url_behaviour example_service
                                   [("zone", "city"); ("journey_date", "2026-11-03")]
                                   eq_refl)
                            eq_refl))).
  - reflexivity.
  - reflexivity.
  - exact (proj1 (get_url_behaviour example_service [("url", "stops")] eq_refl)
             eq_refl "search_stop").
Defined.

(** ** Dates and hours *)

Lemma digit_value_digit (n : nat) : digit_value (PyTime.digit n) = Some (n mod 10).
Proof.
  unfold digit_value, PyTime.digit.
  assert (Hlt : n mod 10 < 10) by (apply Nat.mod_upper_bound; lia).
  rewrite nat_ascii_embedding by lia.
  replace (48 <=? 48 + n mod 10)%nat with true by (symmetry; apply Nat.leb_le; lia).
  replace (48 + n mod 10 <=? 57)%nat with true by (symmetry; apply Nat.leb_le; lia).
  cbn [andb]. f_equal. lia.
Qed.

Lemma decimal_value_pad2 (n : nat) :
  n < 100 -> decimal_value (PyTime.pad2 n) = Some n.
Proof.
  intros Hn. unfold PyTime.pad2. cbn [decimal_value decimal_value_from].
  rewrite !digit_value_digit. f_equal.
  pose proof (Nat.div_mod_eq n 10).
  assert (n / 10 < 10) by (apply Nat.Div0.div_lt_upper_bound; lia).
  rewrite (Nat.mod_small (n / 10)) by lia. lia.
Qed.

Lemma decimal_value_pad4 (n : nat) :
  n / 1000 < 10 -> decimal_value (PyTime.pad4 n) = Some n.
Proof.
  intros Hn. unfold PyTime.pad4, PyTime.pad2.
  cbn [decimal_value decimal_value_from].
  rewrite !digit_value_digit. f_equal.
  rewrite (Nat.mod_small (n / 1000)) by lia.
  pose proof (Nat.div_mod_eq n 10) as E1.
  pose proof (Nat.div_mod_eq (n / 10) 10) as E2.
  pose proof (Nat.div_mod_eq (n / 100) 10) as E3.
  rewrite Nat.Div0.div_div in E2, E3.
  change (10 * 10) with 100 in E2. change (100 * 10) with 1000 in E3.
  lia.
Qed.

(** X15.  For a clock value that a datetime can hold, from the year 1000 on
    (year 1000 to 9999, month 1 to 12, day 1 to 31, hour 0 to 23),
    [_get_date_time] returns a string of the shape YYYY-MM-DD and [_get_hour]
    a string of two digits: four, two and two decimal digits that read back as
    the year, the month and the day of the clock, and two that read back as
    its hour.  Each reads the clock once and makes no call. *)
Theorem date_and_hour_read_back (w : world) :
  let now := clock w (ticks w) in
  1000 <= year now < 10 * 1000 -> 1 <= month now <= 12 ->
  1 <= day now <= 31 -> hour now <= 23 ->
  (exists Y M D,
      fst (ATService._get_date_time w) = Ok (Y ++ "-" ++ M ++ "-" ++ D)
      /\ String.length Y = 4 /\ String.length M = 2 /\ String.length D = 2
      /\ decimal_value Y = Some (year now)
      /\ decimal_value M = Some (month now)
      /\ decimal_value D = Some (day now))
  /\ (exists HH,
         fst (ATService._get_hour w) = Ok HH
         /\ String.length HH = 2 /\ decimal_value HH = Some (hour now))
  /\ ticks (snd (ATService._get_date_time w)) = S (ticks w)
  /\ ticks (snd (ATService._get_hour w)) = S (ticks w)
  /\ calls (snd (ATService._get_date_time w)) = calls w
  /\ calls (snd (ATService._get_hour w)) = calls w.
Proof.
  intros now Hy Hm Hd Hh.
  assert (Hy' : year now / 1000 < 10)
    by (apply Nat.Div0.div_lt_upper_bound; lia).
  split; [|split].
  - exists (PyTime.pad4 (year now)), (PyTime.pad2 (month now)),
      (PyTime.pad2 (day now)).
    split; [reflexivity|]. split; [reflexivity|]. split; [reflexivity|].
    split; [reflexivity|]. split; [now apply decimal_value_pad4|].
    split; apply decimal_value_pad2; lia.
  - exists (PyTime.pad2 (hour now)).
    split; [reflexivity|]. split; [reflexivity|].
    apply decimal_value_pad2. lia.
  - repeat split.
Qed.

Lemma date_and_hour_read_back_witness :
  (1000 <= 2026 < 10 * 1000) /\ (1 <= 11 <= 12) /\ (1 <= 3 <= 31) /\ 9 <= 23
  /\ exists HH,
       fst (ATService._get_hour (world_answering ConnectionFailed)) = Ok HH
       /\ String.length HH = 2 /\ decimal_value HH = Some 9.
Proof.
  repeat (split; [cbn; lia|]).
  exact (proj1 (proj2 (date_and_hour_read_back (world_answering ConnectionFailed)
                         ltac:(cbn; lia) ltac:(cbn; lia) ltac:(cbn; lia)
                         ltac:(cbn; lia)))).
Defined.
